(** * olx_parser: a shallow embedding of [OlxParser] and its properties

    The development follows [src/olx_parser.py]:
    - [PyStr]: the [str] methods the parser calls ([replace], [split]);
    - [PyFloat]: the builtin [float] applied to a string, with doubles
      as IEEE 754 numbers and correct rounding of a decimal text; what
      [float] makes of a text outside ASCII is the parameter
      [PyFloat.Unicode];
    - [Soup]: the queries of the HTML tree ([find], [findAll], [get],
      [get_text]);
    - [Furl]: the URL library behind [get_url] and [is_url], as the
      interface [Furl.Library]: a constructor that can raise
      [ValueError], the host, [set], [add] and the printed URL;
    - [FurlModel]: a model of that library with the splitting of a URL,
      the checks of scheme, host and port and the percent-encoding of
      path and query, for the examples and for the URLs of the site;
    - [OlxParser]: the class itself, method by method, over a library,
      with the [while]/[for] loop of [get_cards] as a step function on
      an explicit state;
    - [Spec]: the vocabulary of the specification and the invariant of a
      run; [Examples]: sample cards and sites;
    - [Handle]: the method [handle]; [Terms]: more vocabulary.

    The properties come after the definitions: [TextProps] for strings,
    [PriceProps] for prices, [ModelProps] for the model of the URL
    library, [CardProps] for [prepare_card_data], [RunProps] for
    [get_cards]; then [RunMore] and [CardMore] with further properties
    of the same methods and of [handle].  A property of a run holds for
    every library that accepts the two URLs of the program
    ([OlxParser.Accepts]); a property that names a printed URL is
    stated for the model. *)

From Stdlib Require Import String Ascii List ZArith NArith QArith Lia Bool.
From Stdlib Require Import DecimalString DecimalZ DecimalPos.
Import ListNotations.
Open Scope string_scope.

(** ** Python values and outcomes *)

(** What a call does: it returns a value or it raises. *)
Inductive exn : Type :=
| ValueError
| IndexError.

Inductive result (A : Type) : Type :=
| Return (a : A)
| Raise (e : exn).
Arguments Return {A} a.
Arguments Raise {A} e.

Definition bind {A B : Type} (r : result A) (k : A -> result B) : result B :=
  match r with
  | Return a => k a
  | Raise e => Raise e
  end.

Notation "x <- r ;; k" := (bind r (fun x => k))
  (at level 61, r at next level, right associativity).

(** ** [str] methods *)
Module PyStr.

(** [Some rest] when [s = p ++ rest]. *)
Fixpoint strip_prefix (p s : string) : option string :=
  match p, s with
  | EmptyString, _ => Some s
  | String a p', String b s' =>
      if Ascii.eqb a b then strip_prefix p' s' else None
  | String _ _, EmptyString => None
  end.

Definition startswith (s p : string) : bool :=
  match strip_prefix p s with Some _ => true | None => false end.

(** [s.replace(old, new)] for a non-empty [old]: occurrences are taken
    left to right and do not overlap.  [skip] counts the characters of
    an occurrence that are still to be dropped. *)
Fixpoint replace_from (old new : string) (skip : nat) (s : string) : string :=
  match s with
  | EmptyString => EmptyString
  | String c s' =>
      match skip with
      | S k => replace_from old new k s'
      | O =>
          if startswith s old
          then new ++ replace_from old new (String.length old - 1) s'
          else String c (replace_from old new 0 s')
      end
  end.

(** With an empty [old], Python puts [new] before every character and at
    the end. *)
Fixpoint interleave (new s : string) : string :=
  match s with
  | EmptyString => new
  | String c s' => new ++ String c (interleave new s')
  end.

Definition replace (s old new : string) : string :=
  match old with
  | EmptyString => interleave new s
  | _ => replace_from old new 0 s
  end.

(** [s.split(sep)[0]] for a non-empty [sep]: the part of [s] before the
    first occurrence of [sep], all of [s] when there is none. *)
Fixpoint split_head (sep s : string) : string :=
  match s with
  | EmptyString => EmptyString
  | String c s' =>
      if startswith s sep then EmptyString else String c (split_head sep s')
  end.

(** ASCII white space, as [str.isspace] sees it. *)
Definition isspace (c : ascii) : bool :=
  let n := nat_of_ascii c in
  ((9 <=? n) && (n <=? 13) || (28 <=? n) && (n <=? 32))%nat.

(** [s.split()]: the maximal runs of characters that are not white
    space.  [cur] is the run being read, reversed. *)
Fixpoint words_from (cur : string) (s : string) : list string :=
  match s with
  | EmptyString =>
      match cur with EmptyString => [] | _ => [cur] end
  | String c s' =>
      if isspace c
      then match cur with
           | EmptyString => words_from EmptyString s'
           | _ => cur :: words_from EmptyString s'
           end
      else words_from (cur ++ String c EmptyString) s'
  end.

Definition words (s : string) : list string := words_from EmptyString s.

(** [sep.join(l)] *)
Fixpoint join (sep : string) (l : list string) : string :=
  match l with
  | [] => EmptyString
  | [x] => x
  | x :: l' => x ++ sep ++ join sep l'
  end.

(** Every character of [s] satisfies [p]. *)
Fixpoint all_chars (p : ascii -> bool) (s : string) : bool :=
  match s with
  | EmptyString => true
  | String c s' => p c && all_chars p s'
  end.

(** The longest prefix of [s] without a character of [p], and the rest
    of [s] from that character on. *)
Fixpoint break_on (p : ascii -> bool) (s : string) : string * string :=
  match s with
  | EmptyString => (EmptyString, EmptyString)
  | String c s' =>
      if p c then (EmptyString, s)
      else let (a, b) := break_on p s' in (String c a, b)
  end.

(** [s.split(sep)] on one character; [cur] is the piece being read. *)
Fixpoint split_on (sep : ascii) (cur : string) (s : string) : list string :=
  match s with
  | EmptyString => [cur]
  | String c s' =>
      if Ascii.eqb c sep then cur :: split_on sep EmptyString s'
      else split_on sep (cur ++ String c EmptyString) s'
  end.

(** ASCII letters in lower case, as [str.lower] puts them. *)
Definition lower (c : ascii) : ascii :=
  let n := nat_of_ascii c in
  if ((65 <=? n) && (n <=? 90))%nat then ascii_of_nat (n + 32) else c.

Fixpoint lowercase (s : string) : string :=
  match s with
  | EmptyString => EmptyString
  | String c s' => String (lower c) (lowercase s')
  end.

End PyStr.

(** ** The builtin [float] on a string *)
Module PyFloat.

(** A float is an IEEE 754 double: [(-1)^neg * mant * 2^exp2] with
    [mant < 2^53], or an infinity, or a NaN.  A normal number has
    [2^52 <= mant] and [-1074 <= exp2 <= 971], a subnormal one has
    [exp2 = -1074], and zero is [Finite neg 0 0]. *)
Inductive pyfloat : Type :=
| Finite (neg : bool) (mant : N) (exp2 : Z)
| Inf (neg : bool)
| NaN.

Definition digit_of (c : ascii) : option N :=
  let n := N_of_ascii c in
  if ((48 <=? n) && (n <=? 57))%N then Some (n - 48)%N else None.

Definition is_digit (c : ascii) : bool :=
  match digit_of c with
  | Some _ => true
  | None => false
  end.

(** The rest of a [digitpart]: digits, each of them possibly after one
    underscore. *)
Fixpoint more_digits (s : string) : list N * string :=
  match s with
  | EmptyString => ([], EmptyString)
  | String c s' =>
      match digit_of c with
      | Some d => let (ds, r) := more_digits s' in (d :: ds, r)
      | None =>
          if Ascii.eqb c "_"
          then match s' with
               | String c2 s'' =>
                   match digit_of c2 with
                   | Some d => let (ds, r) := more_digits s'' in (d :: ds, r)
                   | None => ([], s)
                   end
               | EmptyString => ([], s)
               end
          else ([], s)
      end
  end.

(** [digitpart ::= digit (["_"] digit)*] *)
Definition digitpart (s : string) : option (list N * string) :=
  match s with
  | String c s' =>
      match digit_of c with
      | Some d => let (ds, r) := more_digits s' in Some (d :: ds, r)
      | None => None
      end
  | EmptyString => None
  end.

(** [number ::= [digitpart] "." digitpart | digitpart ["."]]: the digits
    before the point, the digits after it, and what follows. *)
Definition number (s : string) : option (list N * list N * string) :=
  match digitpart s with
  | Some (ip, r) =>
      match r with
      | String "." r' =>
          match digitpart r' with
          | Some (fp, r'') => Some (ip, fp, r'')
          | None => Some (ip, [], r')
          end
      | _ => Some (ip, [], r)
      end
  | None =>
      match s with
      | String "." r' =>
          match digitpart r' with
          | Some (fp, r'') => Some ([], fp, r'')
          | None => None
          end
      | _ => None
      end
  end.

Definition sign (s : string) : bool * string :=
  match s with
  | String "-" s' => (true, s')
  | String "+" s' => (false, s')
  | _ => (false, s)
  end.

(** The number written by a list of decimal digits. *)
Definition of_digits (ds : list N) : N :=
  fold_left (fun a d => 10 * a + d)%N ds 0%N.

(** [exponent ::= ("e" | "E") [sign] digitpart], up to the end of the
    string; nothing at all is exponent 0. *)
Definition exponent (s : string) : option Z :=
  match s with
  | EmptyString => Some 0%Z
  | String c s' =>
      if Ascii.eqb c "e" || Ascii.eqb c "E"
      then let (neg, r) := sign s' in
           match digitpart r with
           | Some (ds, EmptyString) =>
               let e := Z.of_N (of_digits ds) in
               Some (if neg then (- e)%Z else e)
           | _ => None
           end
      else None
  end.

(** *** Rounding a decimal number to a double *)

(** [num / den] divided by [2^k], as a fraction again. *)
Definition scaled (num den k : Z) : Z * Z :=
  if (0 <=? k)%Z then (num, den * 2 ^ k)%Z else (num * 2 ^ (- k), den)%Z.

(** The integer nearest to [a / b]; of two that are equally near, the
    even one. *)
Definition round_half_even (a b : Z) : Z :=
  let q := (a / b)%Z in
  let r := (a mod b)%Z in
  if (2 * r <? b)%Z then q
  else if (b <? 2 * r)%Z then (q + 1)%Z
  else if Z.even q then q else (q + 1)%Z.

(** The [l] with [2^l <= num / den < 2^(l+1)], for positive [num] and
    [den]. *)
Definition floor_log2 (num den : Z) : Z :=
  let l := (Z.log2 num - Z.log2 den)%Z in
  let (a, b) := scaled num den l in
  if (b <=? a)%Z then l else (l - 1)%Z.

(** The double nearest to [m * 10^e10], ties to even: 53 bits are kept,
    fewer below [2^-1022], and what rounds to [2^1024] or more is an
    infinity. *)
Definition nearest (neg : bool) (m : N) (e10 : Z) : pyfloat :=
  if (m =? 0)%N then Finite neg 0 0
  else
    let num := (if 0 <=? e10 then Z.of_N m * 10 ^ e10 else Z.of_N m)%Z in
    let den := (if 0 <=? e10 then 1 else 10 ^ (- e10))%Z in
    let k := Z.max (floor_log2 num den - 52) (-1074) in
    let (a, b) := scaled num den k in
    let q := round_half_even a b in
    let (q', k') :=
      if (q =? 2 ^ 53)%Z then ((2 ^ 52)%Z, (k + 1)%Z) else (q, k) in
    if (971 <? k')%Z then Inf neg
    else if (q' =? 0)%Z then Finite neg 0 0
    else Finite neg (Z.to_N q') k'.

(** *** The text of a float *)

(** The white space [float] drops at both ends of an ASCII text: tab,
    line feed, vertical tab, form feed, carriage return and space (the
    separators 28-31, white space for [str.isspace], are not). *)
Definition is_space (c : ascii) : bool :=
  let n := nat_of_ascii c in
  ((9 <=? n) && (n <=? 13) || (n =? 32))%nat.

Fixpoint lstrip (s : string) : string :=
  match s with
  | String c s' => if is_space c then lstrip s' else s
  | EmptyString => EmptyString
  end.

Fixpoint rstrip (s : string) : string :=
  match s with
  | EmptyString => EmptyString
  | String c s' =>
      match rstrip s' with
      | EmptyString => if is_space c then EmptyString
                       else String c EmptyString
      | r => String c r
      end
  end.

Definition strip (s : string) : string := rstrip (lstrip s).

(** [float(s)] for an ASCII text: surrounding white space is dropped,
    then [[sign] (number [exponent] | "inf" | "infinity" | "nan")], the
    words in any case; anything else raises [ValueError]. *)
Definition parse (s : string) : result pyfloat :=
  let (neg, body) := sign (strip s) in
  match number body with
  | Some (ip, fp, r) =>
      match exponent r with
      | Some e =>
          Return (nearest neg (of_digits (ip ++ fp))
                          (e - Z.of_nat (List.length fp)))
      | None => Raise ValueError
      end
  | None =>
      let w := PyStr.lowercase body in
      if String.eqb w "inf" || String.eqb w "infinity" then Return (Inf neg)
      else if String.eqb w "nan" then Return NaN
      else Raise ValueError
  end.

(** A string is a sequence of bytes, a character outside ASCII being the
    bytes of its UTF-8 encoding, all of them 128 or more. *)
Definition is_ascii (c : ascii) : bool := (nat_of_ascii c <? 128)%nat.

Fixpoint plain (s : string) : bool :=
  match s with
  | EmptyString => true
  | String c s' => is_ascii c && plain s'
  end.

(** On a text with characters outside ASCII, [float] first asks the
    Unicode database of the interpreter which of them are white space
    and which are decimal digits.  That database is not part of the
    program: what [float] makes of such a text is a parameter, [None]
    standing for [ValueError]. *)
Class Unicode : Type := {
  float_unicode : string -> option pyfloat
}.

(** [float(s)] *)
Definition float {tables : Unicode} (s : string) : result pyfloat :=
  if plain s then parse s
  else match float_unicode s with
       | Some x => Return x
       | None => Raise ValueError
       end.

(** [bool(x)]: only zero is falsy. *)
Definition truthy (x : pyfloat) : bool :=
  match x with
  | Finite _ m _ => negb (m =? 0)%N
  | _ => true
  end.

(** The number a finite float is. *)
Definition to_Q (x : pyfloat) : option Q :=
  match x with
  | Finite neg m e =>
      Some ((if neg then -1 else 1) * inject_Z (Z.of_N m) * Qpower 2 e)%Q
  | _ => None
  end.

(** *** An interpreter for the examples *)

(** The white space outside ASCII, by its UTF-8 bytes: U+0085, U+00A0,
    U+1680, U+2000 to U+200A, U+2028, U+2029, U+202F, U+205F and
    U+3000.  [spaced s] is [s] with each of these turned into a space;
    [None] when [s] holds another character outside ASCII. *)
Fixpoint spaced (s : string) : option string :=
  match s with
  | EmptyString => Some EmptyString
  | String c s' =>
      if is_ascii c
      then option_map (String c) (spaced s')
      else
        let n := nat_of_ascii c in
        match s' with
        | String c2 s2 =>
            let n2 := nat_of_ascii c2 in
            if ((n =? 194) && ((n2 =? 133) || (n2 =? 160)))%nat
            then option_map (String " ") (spaced s2)
            else
              match s2 with
              | String c3 s3 =>
                  let n3 := nat_of_ascii c3 in
                  if ((n =? 225) && (n2 =? 154) && (n3 =? 128)
                      || (n =? 226) && (n2 =? 128)
                         && ((128 <=? n3) && (n3 <=? 138)
                             || (n3 =? 168) || (n3 =? 169) || (n3 =? 175))
                      || (n =? 226) && (n2 =? 129) && (n3 =? 159)
                      || (n =? 227) && (n2 =? 128) && (n3 =? 128))%nat
                  then option_map (String " ") (spaced s3)
                  else None
              | EmptyString => None
              end
        | EmptyString => None
        end
  end.

(** The tables of an interpreter that knows the white space above and no
    decimal digit outside ASCII. *)
Definition ascii_digits : Unicode :=
  {| float_unicode s :=
       match spaced s with
       | Some t => match parse t with
                   | Return x => Some x
                   | Raise _ => None
                   end
       | None => None
       end |}.

End PyFloat.

(** ** The parsed HTML tree and its queries *)
Module Soup.

(** A tag has a name, attributes and contents; the contents are strings
    and tags, in document order. *)
Inductive Tag : Type :=
| mkTag (name : string) (attrs : list (string * string))
        (contents : list PageElement)
with PageElement : Type :=
| NavigableString (s : string)
| Child (t : Tag).

Definition name (t : Tag) : string :=
  match t with mkTag n _ _ => n end.
Definition attrs (t : Tag) : list (string * string) :=
  match t with mkTag _ a _ => a end.
Definition contents (t : Tag) : list PageElement :=
  match t with mkTag _ _ c => c end.

(** [tag.get(key)]: the attribute's value, [None] when the tag has no
    such attribute. *)
Fixpoint lookup (key : string) (l : list (string * string)) : option string :=
  match l with
  | [] => None
  | (k, v) :: l' => if String.eqb k key then Some v else lookup key l'
  end.

Definition get (t : Tag) (key : string) : option string :=
  lookup key (attrs t).

(** All tags below [t], in document order ([t] itself is not one). *)
Fixpoint descendants (t : Tag) : list Tag :=
  match t with
  | mkTag _ _ cs =>
      (fix below (l : list PageElement) : list Tag :=
         match l with
         | [] => []
         | NavigableString _ :: l' => below l'
         | Child c :: l' => c :: descendants c ++ below l'
         end) cs
  end.

(** [tag.get_text()]: the strings below [t], concatenated in document
    order. *)
Fixpoint get_text (t : Tag) : string :=
  match t with
  | mkTag _ _ cs =>
      (fix below (l : list PageElement) : string :=
         match l with
         | [] => EmptyString
         | NavigableString s :: l' => s ++ below l'
         | Child c :: l' => get_text c ++ below l'
         end) cs
  end.

(** The [class] attribute holds several classes separated by white
    space.  A [class_] filter matches a tag when it equals one of the
    classes, or the whole list of classes joined by single spaces. *)
Definition classes (t : Tag) : list string :=
  match get t "class" with
  | Some v => PyStr.words v
  | None => []
  end.

Definition has_class (t : Tag) (class_ : string) : bool :=
  match get t "class" with
  | Some _ =>
      existsb (String.eqb class_) (classes t)
      || String.eqb (PyStr.join " " (classes t)) class_
  | None => false
  end.

Definition matches (nm : string) (class_ : option string) (t : Tag) : bool :=
  String.eqb (name t) nm
  && match class_ with
     | Some c => has_class t c
     | None => true
     end.

(** [tag.findAll(name, class_=...)] and [tag.find(name, class_=...)] *)
Definition findAll (t : Tag) (nm : string) (class_ : option string)
  : list Tag :=
  filter (matches nm class_) (descendants t).

Definition find (t : Tag) (nm : string) (class_ : option string)
  : option Tag :=
  match findAll t nm class_ with
  | [] => None
  | x :: _ => Some x
  end.

(** [tag == other] for a string [other]: a tag is only ever equal to
    something that has a name, attributes and contents of its own, and a
    string has none. *)
Definition eq_str (t : Tag) (other : string) : bool := false.

End Soup.

(** ** The URL library *)
Module Furl.

(** A value of a [params] dictionary and its [str()]. *)
Inductive arg : Type :=
| AStr (s : string)
| AInt (z : Z).

Definition str (a : arg) : string :=
  match a with
  | AStr s => s
  | AInt z => NilZero.string_of_int (Z.to_int z)
  end.

(** The library [furl] is not part of the program.  The program makes a
    URL object from a string or [None], which raises [ValueError] when
    the library rejects the string (an invalid port or host); it reads
    the host of the object, replaces its path, adds query parameters to
    it and prints it.  These operations are parameters of the
    development: [load] is [furl(url=u)], with [None] for [ValueError],
    [host] is [f.host], [set_path p] is [f.set(path=p)], [add_args ps]
    is [f.add(args=ps)] and [url] is [f.url]. *)
Class Library : Type := {
  furl : Type;
  load : option string -> option furl;
  host : furl -> option string;
  set_path : string -> furl -> furl;
  add_args : list (string * arg) -> furl -> furl;
  url : furl -> string
}.

End Furl.

(** ** A model of the URL library, for the examples *)
Module FurlModel.
Import PyStr.

(** A URL object: the scheme in lower case ([Some ""] after a leading
    colon); what stands before [@] in the network location; the host in
    lower case, [None] without a [//] part; the port; the path as it is
    printed, percent-encoded; the query items, decoded, a key and, when
    it has an [=], a value; the fragment as written.  The model follows
    the library on URLs with a host name, an optional port, a path and
    a query; IPv6 literals, IDNA host names, the parts of a fragment
    and the default ports of schemes other than http and https are not
    modelled. *)
Record parts : Type := mk_parts {
  scheme : option string;
  userinfo : option string;
  hostname : option string;
  port : option N;
  path : string;
  query : list (string * option string);
  fragment : string
}.

Definition member (cs : string) (c : ascii) : bool :=
  existsb (Ascii.eqb c) (list_ascii_of_string cs).

Definition is_alpha (c : ascii) : bool :=
  let n := nat_of_ascii c in
  ((97 <=? n) && (n <=? 122) || (65 <=? n) && (n <=? 90))%nat.

Definition is_decimal (c : ascii) : bool :=
  let n := nat_of_ascii c in
  ((48 <=? n) && (n <=? 57))%nat.

(** The characters that are never percent-encoded. *)
Definition unreserved (c : ascii) : bool :=
  is_alpha c || is_decimal c || member "-._~" c.

Definition nonempty (s : string) : bool :=
  match s with
  | EmptyString => false
  | String _ _ => true
  end.

Definition tail (s : string) : string :=
  match s with
  | EmptyString => EmptyString
  | String _ s' => s'
  end.

(** *** Percent-encoding *)

Definition hex_digit (n : nat) : ascii :=
  nth n (list_ascii_of_string "0123456789ABCDEF") "0"%char.

Definition hex_value (c : ascii) : option nat :=
  let n := nat_of_ascii c in
  if ((48 <=? n) && (n <=? 57))%nat then Some (n - 48)%nat
  else if ((65 <=? n) && (n <=? 70))%nat then Some (n - 55)%nat
  else if ((97 <=? n) && (n <=? 102))%nat then Some (n - 87)%nat
  else None.

Definition percent (c : ascii) : string :=
  let n := nat_of_ascii c in
  String "%" (String (hex_digit (n / 16))
                     (String (hex_digit (n mod 16)) EmptyString)).

(** [quote(s, safe)] *)
Fixpoint quote (safe : ascii -> bool) (s : string) : string :=
  match s with
  | EmptyString => EmptyString
  | String c s' =>
      (if unreserved c || safe c then String c EmptyString else percent c)
      ++ quote safe s'
  end.

(** [quote(s, safe='')] with every [%20] turned into [+] *)
Fixpoint quote_plus (s : string) : string :=
  match s with
  | EmptyString => EmptyString
  | String c s' =>
      (if unreserved c then String c EmptyString
       else if Ascii.eqb c " " then "+"
       else percent c)
      ++ quote_plus s'
  end.

(** [unquote(s)]: an escape that is not two hexadecimal digits is left
    as it is. *)
Fixpoint unquote (s : string) : string :=
  match s with
  | EmptyString => EmptyString
  | String c s' =>
      let keep := String c (unquote s') in
      if Ascii.eqb c "%" then
        match s' with
        | String a (String b r) =>
            match hex_value a, hex_value b with
            | Some x, Some y => String (ascii_of_nat (16 * x + y)) (unquote r)
            | _, _ => keep
            end
        | _ => keep
        end
      else keep
  end.

Fixpoint plus_to_space (s : string) : string :=
  match s with
  | EmptyString => EmptyString
  | String c s' =>
      String (if Ascii.eqb c "+" then " "%char else c) (plus_to_space s')
  end.

Definition unquote_plus (s : string) : string := unquote (plus_to_space s).

(** [s] is made of characters of [ok] and of escapes. *)
Fixpoint valid_encoded (ok : ascii -> bool) (s : string) : bool :=
  match s with
  | EmptyString => true
  | String c s' =>
      if Ascii.eqb c "%" then
        match s' with
        | String a (String b r) =>
            match hex_value a, hex_value b with
            | Some _, Some _ => valid_encoded ok r
            | _, _ => false
            end
        | _ => false
        end
      else ok c && valid_encoded ok s'
  end.

(** *** The path *)

(** The characters a path segment keeps when it is printed. *)
Definition segment_safe (c : ascii) : bool := member ":@-._~!$&'()*+,;=" c.

Definition segment_char (c : ascii) : bool :=
  unreserved c || segment_safe c || negb (PyFloat.is_ascii c).

(** A segment as it is printed: decoded when it is validly encoded, and
    encoded again. *)
Definition print_segment (seg : string) : string :=
  quote segment_safe
        (if valid_encoded segment_char seg then unquote seg else seg).

(** A path as it is printed: its segments, with a slash in front when
    the path is written with one or when the URL has a network
    location. *)
Definition print_path (has_netloc : bool) (p : string) : string :=
  match p with
  | EmptyString => EmptyString
  | String _ _ =>
      let segments := split_on "/" EmptyString p in
      match segments with
      | EmptyString :: ((_ :: _) as rest) =>
          "/" ++ join "/" (map print_segment rest)
      | _ =>
          (if has_netloc then "/" else EmptyString)
          ++ join "/" (map print_segment segments)
      end
  end.

(** *** The query *)

Definition parse_item (s : string) : string * option string :=
  let (k, r) := break_on (fun c => Ascii.eqb c "=") s in
  match r with
  | EmptyString => (unquote_plus k, None)
  | String _ v => (unquote_plus k, Some (unquote_plus v))
  end.

Definition parse_query (s : string) : list (string * option string) :=
  match s with
  | EmptyString => []
  | String _ _ => map parse_item (split_on "&" EmptyString s)
  end.

Definition item_str (kv : string * option string) : string :=
  match snd kv with
  | Some v => quote_plus (fst kv) ++ "=" ++ quote_plus v
  | None => quote_plus (fst kv)
  end.

(** *** The scheme and the network location *)

Definition valid_scheme (s : string) : bool :=
  match s with
  | EmptyString => false
  | String c r =>
      is_alpha c
      && all_chars (fun c => is_alpha c || is_decimal c || member "+-." c) r
  end.

(** The scheme is what stands before the first colon, when that colon
    comes before any [/], [?] or [#] and what stands before it is a
    letter followed by letters, digits, [+], [-] and [.]. *)
Definition split_scheme (url : string) : option string * string :=
  match url with
  | String ":" rest => (Some EmptyString, rest)
  | _ =>
      let (a, b) := break_on (member ":/?#") url in
      match b with
      | String ":" rest =>
          if valid_scheme a then (Some (lowercase a), rest) else (None, url)
      | _ => (None, url)
      end
  end.

(** After [//] the network location runs up to the next [/], [?] or
    [#]. *)
Definition split_netloc (s : string) : option string * string :=
  match s with
  | String "/" (String "/" r) =>
      let (n, r') := break_on (member "/?#") r in (Some n, r')
  | _ => (None, s)
  end.

(** [s.rsplit(":", 1)] when [s] holds a colon *)
Fixpoint rsplit_colon (s : string) : option (string * string) :=
  match s with
  | EmptyString => None
  | String c s' =>
      match rsplit_colon s' with
      | Some (h, p) => Some (String c h, p)
      | None => if Ascii.eqb c ":" then Some (EmptyString, s') else None
      end
  end.

Definition decimal_value (s : string) : N :=
  fold_left (fun a c => 10 * a + (N_of_ascii c - 48))%N
            (list_ascii_of_string s) 0%N.

(** A port is a number from 1 to 65535 written in digits. *)
Definition valid_port (s : string) : bool :=
  nonempty s && all_chars is_decimal s
  && (1 <=? decimal_value s)%N && (decimal_value s <=? 65535)%N.

(** A host holds none of the characters below and no empty label, a
    period at the very end apart. *)
Definition valid_host (h : string) : bool :=
  all_chars (fun c => negb (member "!@#$%^&'*()+=:;/" c
                            || (nat_of_ascii c =? 34)%nat)) h
  && let labels := split_on "." EmptyString h in
     forallb nonempty
             (match last labels "x" with
              | EmptyString => removelast labels
              | _ => labels
              end).

(** User information, host and port of a network location; [None] when
    the port or the host is not valid. *)
Definition parse_netloc (n : string)
  : option (option string * string * option N) :=
  let (ui, hp) :=
    let (a, b) := break_on (fun c => Ascii.eqb c "@") n in
    match b with
    | String _ r => (Some a, r)
    | EmptyString => (None, a)
    end in
  match rsplit_colon hp with
  | Some (h, p) =>
      if valid_port p && valid_host h
      then Some (ui, lowercase h, Some (decimal_value p))
      else None
  | None =>
      if valid_host hp then Some (ui, lowercase hp, None) else None
  end.

Definition default_port (sch : option string) : option N :=
  match sch with
  | Some "http" => Some 80%N
  | Some "https" => Some 443%N
  | _ => None
  end.

Definition N_str (n : N) : string := NilZero.string_of_uint (N.to_uint n).

(** The network location as it is printed: the port is left out when it
    is the default port of the scheme. *)
Definition netloc_str (sch ui : option string) (h : string) (po : option N)
  : string :=
  (match ui with Some u => u ++ "@" | None => EmptyString end)
  ++ h
  ++ (match po with
      | Some n =>
          match default_port sch with
          | Some d => if (n =? d)%N then EmptyString else ":" ++ N_str n
          | None => ":" ++ N_str n
          end
      | None => EmptyString
      end).

Definition netloc (f : parts) : option string :=
  match hostname f with
  | Some h => Some (netloc_str (scheme f) (userinfo f) h (port f))
  | None => None
  end.

Definition has_netloc (f : parts) : bool :=
  match netloc f with
  | Some n => nonempty n
  | None => false
  end.

(** *** The operations *)

(** [furl(url=u)]; [None] is read as the empty string. *)
Definition load (u : option string) : option parts :=
  let url := match u with Some s => s | None => EmptyString end in
  let (sch, r1) := split_scheme url in
  let (nl, r2) := split_netloc r1 in
  let (r3, frag) := break_on (fun c => Ascii.eqb c "#") r2 in
  let (p, q) := break_on (fun c => Ascii.eqb c "?") r3 in
  match nl with
  | None =>
      Some {| scheme := sch; userinfo := None; hostname := None;
              port := None; path := print_path false p;
              query := parse_query (tail q); fragment := tail frag |}
  | Some n =>
      match parse_netloc n with
      | Some (ui, h, po) =>
          Some {| scheme := sch; userinfo := ui; hostname := Some h;
                  port := po;
                  path := print_path (nonempty (netloc_str sch ui h po)) p;
                  query := parse_query (tail q); fragment := tail frag |}
      | None => None
      end
  end.

(** [f.set(path=p)] *)
Definition set_path (p : string) (f : parts) : parts :=
  {| scheme := scheme f; userinfo := userinfo f; hostname := hostname f;
     port := port f; path := print_path (has_netloc f) p;
     query := query f; fragment := fragment f |}.

(** [f.add(args=params)]: the items are appended to the query, in the
    order of the dictionary. *)
Definition add_args (params : list (string * Furl.arg)) (f : parts) : parts :=
  {| scheme := scheme f; userinfo := userinfo f; hostname := hostname f;
     port := port f; path := path f;
     query := query f
              ++ map (fun kv => (fst kv, Some (Furl.str (snd kv)))) params;
     fragment := fragment f |}.

(** [f.url] *)
Definition url (f : parts) : string :=
  (match scheme f with
   | Some s => s ++ ":"
   | None => EmptyString
   end)
  ++ (match netloc f with Some n => "//" ++ n | None => EmptyString end)
  ++ path f
  ++ (match query f with
      | [] => EmptyString
      | q => "?" ++ join "&" (map item_str q)
      end)
  ++ (match fragment f with
      | EmptyString => EmptyString
      | fr => "#" ++ fr
      end).

#[global] Instance model : Furl.Library := {|
  Furl.furl := parts;
  Furl.load := load;
  Furl.host := hostname;
  Furl.set_path := set_path;
  Furl.add_args := add_args;
  Furl.url := url
|}.

End FurlModel.

(** ** The parser *)
Module OlxParser.
Import Soup.

Definition BASE_URL : string := "https://www.olx.pl".
Definition OFERTY_URL : string :=
  "https://www.olx.pl/oferty/?search%5Border%5D=created_at:desc".

(** The library makes URL objects of the two URLs of the class. *)
Class Accepts (lib : Furl.Library) : Prop := {
  accepts_base : Furl.load (Some BASE_URL) <> None;
  accepts_listing : Furl.load (Some OFERTY_URL) <> None
}.

(** The values a card record holds. *)
Inductive value : Type :=
| VNone
| VStr (s : string)
| VInt (z : Z)
| VFloat (x : PyFloat.pyfloat).

(** [bool(v)] *)
Definition truthy (v : value) : bool :=
  match v with
  | VNone => false
  | VStr s => negb (String.eqb s "")
  | VInt z => negb (z =? 0)%Z
  | VFloat x => PyFloat.truthy x
  end.

Definition of_opt (o : option string) : value :=
  match o with
  | Some s => VStr s
  | None => VNone
  end.

(** A [dict] with string keys, in insertion order. *)
Definition dict : Type := list (string * value).

Definition keys (d : dict) : list string := map fst d.
Definition values (d : dict) : list value := map snd d.

Fixpoint getitem (d : dict) (k : string) : option value :=
  match d with
  | [] => None
  | (k', v) :: d' => if String.eqb k' k then Some v else getitem d' k
  end.

(** [bool(d)] for a dictionary *)
Definition dict_truthy (d : dict) : bool :=
  match d with
  | [] => false
  | _ => true
  end.

(** [not x] for the [str | None] that [is_url] returns *)
Definition not_ (x : option string) : bool :=
  match x with
  | Some (String _ _) => false
  | _ => true
  end.

(** Logging *)
Inductive level : Type := ERROR | WARNING | INFO.
Definition log_record : Type := (level * string)%type.

Definition str_int (z : Z) : string := NilZero.string_of_int (Z.to_int z).

(** [check_data], lines 95-106: it returns nothing and only logs. *)
Definition check_data (data : dict) : list log_record :=
  if negb (forallb truthy (values data))
  then [(WARNING, "Not all data received")]
  else [].

(** The answer of [requests.get]. *)
Record Response : Type := mk_Response {
  status_code : Z;
  text : string
}.

(** A file written by [csv.DictWriter]: the header and the rows. *)
Record csv_file : Type := mk_csv {
  fieldnames : list string;
  rows : list dict
}.

(** Where [get_cards] stands. *)
Inductive control : Type :=
| AtWhile                       (* the test of [while], line 68 *)
| AtFor (cards : list Tag)      (* the [for] of line 85, cards left *)
| Finished                      (* returned after [write_results] *)
| Aborted                       (* [return None] of lines 78 and 84 *)
| Crashed (e : exn).            (* an exception left [get_cards] *)

(** The object, the local variables of [get_cards] and the outside
    world it writes to. *)
Record state : Type := mk_state {
  card_data : list dict;
  current_page : Z;
  at_ : control;
  log : list log_record;
  requested : list string;       (* the URLs given to [requests.get] *)
  results_folder : bool;         (* the directory [results] exists *)
  files : list csv_file          (* the files written into it *)
}.

Definition init : state :=
  {| card_data := []; current_page := 0; at_ := AtWhile; log := [];
     requested := []; results_folder := false; files := [] |}.

Definition len (l : list dict) : Z := Z.of_nat (List.length l).

(** [write_results], lines 156-169: with no record, [self.card_data[0]]
    raises before any file is opened. *)
Definition write_results (s : state) : state :=
  match card_data s with
  | [] =>
      {| card_data := card_data s; current_page := current_page s;
         at_ := Crashed IndexError; log := log s;
         requested := requested s; results_folder := true;
         files := files s |}
  | first :: _ =>
      {| card_data := card_data s; current_page := current_page s;
         at_ := Finished;
         log := log s ++ [(INFO, "CSV file has been created")];
         requested := requested s; results_folder := true;
         files := files s ++ [{| fieldnames := keys first;
                                 rows := card_data s |}] |}
  end.

(** [params] of lines 70-72 *)
Definition page_params (page : Z) : option (list (string * Furl.arg)) :=
  if (1 <? page)%Z then Some [("page", Furl.AInt page)] else None.

Section Library.

(** The interpreter's Unicode tables and the URL library. *)
Context {tables : PyFloat.Unicode} {lib : Furl.Library}.

(** [furl(url=u)] *)
Definition new_furl (u : option string) : result Furl.furl :=
  match Furl.load u with
  | Some f => Return f
  | None => Raise ValueError
  end.

(** [get_url], lines 31-48.  An empty [path] and an empty [params] are
    falsy, like [None]. *)
Definition get_url (base_url : string) (path : option string)
           (params : option (list (string * Furl.arg))) : result string :=
  f_url <- new_furl (Some base_url) ;;
  let f_url :=
    match path with
    | Some (String _ _ as p) => Furl.set_path p f_url
    | _ => f_url
    end in
  let f_url :=
    match params with
    | Some ((_ :: _) as ps) => Furl.add_args ps f_url
    | _ => f_url
    end in
  Return (Furl.url f_url).

(** [is_url], lines 50-61: what is returned is the host itself. *)
Definition is_url (url : option string) : result (option string) :=
  f <- new_furl url ;;
  Return (Furl.host f).

(** [prepare_card_data], lines 108-154.  A tag is always truthy, so
    [if card_url:] and the like test that [find] found something. *)
Definition prepare_card_data (card : Tag) : result (option dict) :=
  let card_id := get card "id" in
  card_url <-
    match find card "a" None with
    | Some a =>
        let href := get a "href" in
        h <- is_url href ;;
        if not_ h
        then (u <- get_url BASE_URL href None ;; Return (Some u))
        else Return href
    | None => Return None
    end ;;
  let img := find card "img" None in
  let img_url :=
    match img with
    | Some i => get i "src"
    | None => None
    end in
  rejected <-
    match img with
    | Some _ => (h <- is_url img_url ;; Return (not_ h))
    | None => Return false
    end ;;
  if rejected
  then Return None
  else
    match find card "div" (Some "css-u2ayx9") with
    | None => Return None
    | Some name_price_div =>
        let name :=
          match find name_price_div "h6" (Some "css-16v5mdi er34gjf0") with
          | Some h => Some (get_text h)
          | None => None
          end in
        price <-
          match find name_price_div "p" (Some "css-10b0gli er34gjf0") with
          | Some p =>
              if eq_str p "Zadarmo"
              then Return (VInt 0)
              else
                x <- PyFloat.float
                       (PyStr.split_head "zł"
                          (PyStr.replace
                             (PyStr.replace (get_text p) " " "") "," ".")) ;;
                Return (VFloat x)
          | None => Return VNone
          end ;;
        let state :=
          match find card "span" (Some "css-3lkihg") with
          | Some s => Some (get_text s)
          | None => None
          end in
        Return (Some [("card_id", of_opt card_id);
                      ("card_url", of_opt card_url);
                      ("img_url", of_opt img_url);
                      ("name", of_opt name);
                      ("price", price);
                      ("currency_unit", VStr "zł");
                      ("state", of_opt state)])
    end.

(** The URL that lines 70-73 make for a page.  [get_url] raises there
    only if the library rejects [OFERTY_URL]; the empty string stands
    for that case, which [Accepts] excludes. *)
Definition page_url (page : Z) : string :=
  match get_url OFERTY_URL None (page_params page) with
  | Return url => url
  | Raise _ => EmptyString
  end.

Section Run.

(** The configured target, the site and the HTML parser. *)
Variable goods_count : Z.
Variable requests_get : string -> Response.
Variable BeautifulSoup : string -> Tag.

(** One step of [get_cards], lines 63-93: from the [while] test to the
    head of the [for] loop (or out), or one card of the [for] loop. *)
Definition step (s : state) : state :=
  match at_ s with
  | AtWhile =>
      if (len (card_data s) <? goods_count)%Z then
        let page := (current_page s + 1)%Z in
        match get_url OFERTY_URL None (page_params page) with
        | Raise e =>
            {| card_data := card_data s; current_page := page;
               at_ := Crashed e; log := log s; requested := requested s;
               results_folder := results_folder s; files := files s |}
        | Return url =>
            let response := requests_get url in
            if negb (status_code response =? 200)%Z then
              {| card_data := card_data s; current_page := page;
                 at_ := Aborted;
                 log := log s ++
                        [(ERROR, "Can't get response from url: " ++ OFERTY_URL
                                 ++ ", status code: "
                                 ++ str_int (status_code response)
                                 ++ ", " ++ text response)];
                 requested := requested s ++ [url];
                 results_folder := results_folder s; files := files s |}
            else
              match findAll (BeautifulSoup (text response))
                            "div" (Some "css-1sw7q4x") with
              | [] =>
                  {| card_data := card_data s; current_page := page;
                     at_ := Aborted;
                     log := log s ++ [(ERROR, "Can't find any cards")];
                     requested := requested s ++ [url];
                     results_folder := results_folder s; files := files s |}
              | cards =>
                  {| card_data := card_data s; current_page := page;
                     at_ := AtFor cards; log := log s;
                     requested := requested s ++ [url];
                     results_folder := results_folder s; files := files s |}
              end
        end
      else write_results s
  | AtFor [] =>
      {| card_data := card_data s; current_page := current_page s;
         at_ := AtWhile; log := log s; requested := requested s;
         results_folder := results_folder s; files := files s |}
  | AtFor (card :: rest) =>
      if (len (card_data s) =? goods_count)%Z then
        {| card_data := card_data s; current_page := current_page s;
           at_ := AtWhile; log := log s; requested := requested s;
           results_folder := results_folder s; files := files s |}
      else
        match prepare_card_data card with
        | Raise e =>
            {| card_data := card_data s; current_page := current_page s;
               at_ := Crashed e; log := log s; requested := requested s;
               results_folder := results_folder s; files := files s |}
        | Return (Some data) =>
            if dict_truthy data then
              let card_data' := (card_data s ++ [data])%list in
              {| card_data := card_data'; current_page := current_page s;
                 at_ := AtFor rest;
                 log := log s ++ check_data data ++
                        [(INFO, "Amount collected data: "
                                ++ str_int (len card_data')
                                ++ ", page: " ++ str_int (current_page s))];
                 requested := requested s;
                 results_folder := results_folder s; files := files s |}
            else
              {| card_data := card_data s; current_page := current_page s;
                 at_ := AtFor rest; log := log s; requested := requested s;
                 results_folder := results_folder s; files := files s |}
        | Return None =>
            {| card_data := card_data s; current_page := current_page s;
               at_ := AtFor rest; log := log s; requested := requested s;
               results_folder := results_folder s; files := files s |}
        end
  | Finished | Aborted | Crashed _ => s
  end.

(** [get_cards] run for at most [fuel] steps. *)
Fixpoint get_cards (fuel : nat) (s : state) : state :=
  match fuel with
  | O => s
  | S k => get_cards k (step s)
  end.

(** The states a run goes through. *)
Inductive reachable : state -> Prop :=
| reach_init : reachable init
| reach_step : forall s, reachable s -> reachable (step s).

End Run.

End Library.

Definition stopped (s : state) : bool :=
  match at_ s with
  | Finished | Aborted | Crashed _ => true
  | _ => false
  end.

End OlxParser.

(** ** What the specification calls things *)
Module Spec.
Import Soup OlxParser.

Definition container_missing (card : Tag) : Prop :=
  find card "div" (Some "css-u2ayx9") = None.

Definition heading (container : Tag) : option Tag :=
  find container "h6" (Some "css-16v5mdi er34gjf0").

Definition price_node (container : Tag) : option Tag :=
  find container "p" (Some "css-10b0gli er34gjf0").

Definition state_label (card : Tag) : option Tag :=
  find card "span" (Some "css-3lkihg").

Definition record_keys : list string :=
  ["card_id"; "card_url"; "img_url"; "name"; "price"; "currency_unit";
   "state"].

(** The [src] of the first image of the card; [None] when the card has
    no image or the image has no [src]. *)
Definition image_source (card : Tag) : option string :=
  match find card "img" None with
  | Some i => get i "src"
  | None => None
  end.

(** The price text as the specification prepares it: the spaces are
    dropped, every comma becomes a point, and what stands from the
    currency suffix on is cut off. *)
Fixpoint drop_spaces (s : string) : string :=
  match s with
  | EmptyString => EmptyString
  | String c s' =>
      if Ascii.eqb c " " then drop_spaces s' else String c (drop_spaces s')
  end.

Fixpoint comma_to_point (s : string) : string :=
  match s with
  | EmptyString => EmptyString
  | String c s' =>
      String (if Ascii.eqb c "," then "."%char else c) (comma_to_point s')
  end.

Definition price_text (t : string) : string :=
  PyStr.split_head "zł" (comma_to_point (drop_spaces t)).

(** The decimal digits [ds] written out. *)
Fixpoint digits_str (ds : list N) : string :=
  match ds with
  | [] => EmptyString
  | d :: ds' => String (ascii_of_N (48 + d)) (digits_str ds')
  end.

(** A price as the site writes it: the whole part, digits in groups
    set apart by spaces, then possibly a comma and the decimals, then
    the currency. *)
Definition price_string (whole : string) (decimals : list N) : string :=
  whole
  ++ match decimals with
     | [] => EmptyString
     | _ :: _ => "," ++ digits_str decimals
     end
  ++ " zł".

(** The record of lines 146-154, given the link of lines 118-122 and
    the price of lines 136-141. *)
Definition record_of (card container : Tag) (card_url : option string)
           (price : value) : dict :=
  [("card_id", of_opt (get card "id"));
   ("card_url", of_opt card_url);
   ("img_url", of_opt (image_source card));
   ("name", of_opt (option_map get_text (heading container)));
   ("price", price);
   ("currency_unit", VStr "zł");
   ("state", of_opt (option_map get_text (state_label card)))].

(** A path of unreserved characters and single slashes that starts with
    a slash, and parameters of unreserved characters: nothing in them
    is percent-encoded. *)
Fixpoint single_slashes (s : string) : bool :=
  match s with
  | EmptyString => true
  | String c s' =>
      match s' with
      | String d _ => negb (Ascii.eqb c "/" && Ascii.eqb d "/")
      | EmptyString => true
      end
      && single_slashes s'
  end.

Definition plain_path (p : string) : bool :=
  match p with
  | String "/" _ =>
      PyStr.all_chars (fun c => FurlModel.unreserved c || Ascii.eqb c "/") p
      && single_slashes p
  | _ => false
  end.

Definition plain_param (kv : string * Furl.arg) : bool :=
  PyStr.all_chars FurlModel.unreserved (fst kv)
  && PyStr.all_chars FurlModel.unreserved (Furl.str (snd kv)).

(** A query item as it is written in a URL. *)
Definition param_str (kv : string * Furl.arg) : string :=
  fst kv ++ "=" ++ Furl.str (snd kv).

(** An argument that is given: the empty string and the empty
    dictionary are falsy, like [None]. *)
Definition given_path (path : option string) : option string :=
  match path with
  | Some EmptyString => None
  | _ => path
  end.

Definition given_params (params : option (list (string * Furl.arg)))
  : option (list (string * Furl.arg)) :=
  match params with
  | Some [] => None
  | _ => params
  end.

(** The URL object of [get_url], in the words of the specification:
    the path is replaced when one is given, and the parameters are added
    when some are given. *)
Definition build {lib : Furl.Library} (f : Furl.furl)
           (path : option string)
           (params : option (list (string * Furl.arg))) : Furl.furl :=
  let f := match path with
           | Some p => Furl.set_path p f
           | None => f
           end in
  match params with
  | Some ps => Furl.add_args ps f
  | None => f
  end.

Section Library.

Context {tables : PyFloat.Unicode} {lib : Furl.Library}.

(** The link of lines 118-122: the [href] of the first anchor when
    [is_url] finds a host in it, and what [get_url] makes of it and the
    base URL otherwise. *)
Definition link (card : Tag) : result (option string) :=
  match find card "a" None with
  | Some a =>
      h <- is_url (get a "href") ;;
      if not_ h
      then (u <- get_url BASE_URL (get a "href") None ;; Return (Some u))
      else Return (get a "href")
  | None => Return None
  end.

(** The image test of lines 123-128: [true] when the card has an image
    and [is_url] of its [src] is falsy. *)
Definition image_test (card : Tag) : result bool :=
  match find card "img" None with
  | Some i => h <- is_url (get i "src") ;; Return (not_ h)
  | None => Return false
  end.

Definition image_rejected (card : Tag) : Prop :=
  image_test card = Return true.

(** The image rule in the words of the specification: the card has an
    image whose source is present but is not an absolute URL. *)
Definition image_unresolvable (card : Tag) : Prop :=
  exists img src h,
    find card "img" None = Some img
    /\ get img "src" = Some src
    /\ is_url (Some src) = Return h /\ not_ h = true.

(** The price of lines 136-141. *)
Definition read_price (container : Tag) : result value :=
  match price_node container with
  | Some p =>
      x <- PyFloat.float
             (PyStr.split_head "zł"
                (PyStr.replace (PyStr.replace (get_text p) " " "") "," ".")) ;;
      Return (VFloat x)
  | None => Return VNone
  end.

(** The records of the cards of a list, in the order of the list; a card
    without a record leaves nothing. *)
Definition records (cards : list Tag) : list dict :=
  flat_map (fun c => match prepare_card_data c with
                     | Return (Some d) => [d]
                     | _ => []
                     end) cards.

(** A record as [prepare_card_data] makes them. *)
Definition made_by_extraction (d : dict) : Prop :=
  keys d = record_keys
  /\ getitem d "currency_unit" = Some (VStr "zł")
  /\ exists card, prepare_card_data card = Return (Some d).

Section Site.

Variable goods_count : Z.
Variable requests_get : string -> Response.
Variable BeautifulSoup : string -> Tag.

(** The page numbers [1 .. n]. *)
Definition pages (n : Z) : list Z := map Z.of_nat (seq 1 (Z.to_nat n)).

(** The card nodes of page [n], in document order. *)
Definition page_cards (n : Z) : list Tag :=
  findAll (BeautifulSoup (text (requests_get (page_url n))))
          "div" (Some "css-1sw7q4x").

(** The cards of the pages [1 .. n], in the order the loop meets them. *)
Definition seen (n : Z) : list Tag := flat_map page_cards (pages n).

(** What holds of every state of a run. *)
Record invariant (s : state) : Prop := {
  inv_page : (0 <= current_page s)%Z;
  inv_requested : requested s = map page_url (pages (current_page s));
  inv_order :
    exists done rest,
      (done ++ rest)%list = seen (current_page s)
      /\ card_data s = records done
      /\ match at_ s with
         | AtFor cs => rest = cs
         | AtWhile => rest = [] \/ (goods_count <= len (card_data s))%Z
         | _ => True
         end;
  inv_bound : (0 <= goods_count)%Z -> (len (card_data s) <= goods_count)%Z;
  inv_records : Forall made_by_extraction (card_data s);
  inv_world :
    match at_ s with
    | Finished =>
        (goods_count <= len (card_data s))%Z
        /\ results_folder s = true
        /\ exists first,
             hd_error (card_data s) = Some first
             /\ files s = [{| fieldnames := keys first;
                              rows := card_data s |}]
    | Crashed IndexError =>
        (goods_count <= len (card_data s))%Z
        /\ card_data s = [] /\ results_folder s = true /\ files s = []
    | Crashed ValueError =>
        results_folder s = false /\ files s = []
        /\ exists card, In card (seen (current_page s))
                        /\ prepare_card_data card = Raise ValueError
    | Aborted =>
        results_folder s = false /\ files s = []
        /\ (exists msg, last (log s) (INFO, "") = (ERROR, msg))
        /\ (status_code (requests_get (page_url (current_page s))) <> 200%Z
            \/ page_cards (current_page s) = [])
    | AtWhile | AtFor _ => results_folder s = false /\ files s = []
    end
}.

End Site.

End Library.

End Spec.

(** ** Sample cards, pages and sites *)
Module Examples.
Import Soup OlxParser.

(** The examples run with the interpreter [PyFloat.ascii_digits] and
    the library [FurlModel.model], which makes URL objects of the two
    URLs of the class. *)
#[global] Existing Instance PyFloat.ascii_digits.

#[global] Instance model_accepts : Accepts FurlModel.model.
Proof. split; discriminate. Qed.

Definition container (name price : option string) : PageElement :=
  Child (mkTag "div" [("class", "css-u2ayx9")]
    ((match name with
      | Some n => [Child (mkTag "h6" [("class", "css-16v5mdi er34gjf0")]
                                [NavigableString n])]
      | None => []
      end)
     ++
     (match price with
      | Some p => [Child (mkTag "p" [("class", "css-10b0gli er34gjf0")]
                                [NavigableString p])]
      | None => []
      end))).

Definition card (id : string) (inner : list PageElement) : Tag :=
  mkTag "div" [("class", "css-1sw7q4x"); ("id", id)] inner.

Definition image (src : string) : PageElement :=
  Child (mkTag "img" [("src", src)] []).

Definition anchor (href : string) : PageElement :=
  Child (mkTag "a" [("href", href)] []).

(** The card of the specification: an absolute image, the name "Desk"
    and the price "1 200,50 zł"; its link is relative. *)
Definition desk_card : Tag :=
  card "1" [anchor "/d/oferta/desk.html"; image "https://img.cdn/pic.jpg";
            container (Some "Desk") (Some "1 200,50 zł");
            Child (mkTag "span" [("class", "css-3lkihg")]
                         [NavigableString "Nowe"])].

Definition lamp_card : Tag :=
  card "2" [anchor "https://www.olx.pl/d/oferta/lamp.html";
            container (Some "Lamp") (Some "35 zł")].

Definition chair_card : Tag :=
  card "3" [image "https://img.cdn/chair.jpg";
            container (Some "Chair") (Some "80,99 zł")].

Definition shelf_card : Tag :=
  card "4" [container (Some "Shelf") (Some "15 zł")].

(** A card that carries nothing but the name/price container, itself
    empty. *)
Definition empty_card : Tag :=
  mkTag "div" [("class", "css-1sw7q4x")] [container None None].

(** A card given away: the price text is the marker itself. *)
Definition free_card : Tag :=
  card "5" [container (Some "Sofa") (Some "Zadarmo")].

(** A price that is no number. *)
Definition swap_card : Tag :=
  card "6" [container (Some "Bike") (Some "Zamienię")].

(** An image tag without a [src]. *)
Definition bare_image_card : Tag :=
  card "7" [Child (mkTag "img" [] []); container (Some "Rug") (Some "5 zł")].

(** An image with a relative [src]. *)
Definition relative_image_card : Tag :=
  card "8" [image "/rel/path.jpg"; container (Some "Vase") (Some "5 zł")].

(** A card without the name/price container. *)
Definition no_container_card : Tag :=
  card "9" [anchor "/d/oferta/x.html"; image "https://img.cdn/x.jpg"].

(** An image address with a port that is no number, and a link with
    such a port on a card whose image address is relative. *)
Definition bad_port_card : Tag :=
  card "12" [image "https://host:abc/x.jpg";
             container (Some "Pen") (Some "5 zł")].

Definition bad_port_link_card : Tag :=
  card "13" [anchor "https://host:abc/x.html"; image "/rel/path.jpg";
             container (Some "Ink") (Some "5 zł")].

Definition document (cards : list Tag) : Tag :=
  mkTag "[document]" [] (map Child cards).

(** A site of two pages, two cards each; the HTML texts are stood for
    by the names "page 1" and "page 2". *)
Definition two_pages (url : string) : Response :=
  if String.eqb url (page_url 1) then mk_Response 200 "page 1"
  else if String.eqb url (page_url 2) then mk_Response 200 "page 2"
  else mk_Response 404 "Not Found".

Definition two_pages_parser (html : string) : Tag :=
  if String.eqb html "page 1" then document [desk_card; lamp_card]
  else if String.eqb html "page 2" then document [chair_card; shelf_card]
  else document [].

(** A site that is down, and one whose pages hold no card. *)
Definition site_down (url : string) : Response :=
  mk_Response 503 "Service Unavailable".

Definition blank_site (url : string) : Response :=
  mk_Response 200 "".

(** A site whose first page holds a card with an unreadable price. *)
Definition swap_site (url : string) : Response :=
  mk_Response 200 "swap".

Definition swap_parser (html : string) : Tag :=
  document [lamp_card; swap_card; shelf_card].

End Examples.

(** ** [handle] *)
Module Handle.
Import Soup OlxParser.

(** What a call of [handle] comes to: it returns, having printed the
    result set or not, or the exception of [get_cards] leaves it, or
    [get_cards] is still running when the fuel is used up. *)
Inductive outcome : Type :=
| Returns (printed : option (list dict))
| Raises (e : exn)
| Running.

(** [bool(l)] for a list *)
Definition list_truthy {A : Type} (l : list A) : bool :=
  match l with
  | [] => false
  | _ :: _ => true
  end.

Section Run.

Context {tables : PyFloat.Unicode} {lib : Furl.Library}.

Variable goods_count : Z.
Variable requests_get : string -> Response.
Variable BeautifulSoup : string -> Tag.
Variable print_result : bool.

(** [handle], lines 23-29, on the object made by [__init__], lines
    18-21: the final state of [get_cards] and the outcome. *)
Definition handle (fuel : nat) : state * outcome :=
  let s := get_cards goods_count requests_get BeautifulSoup fuel init in
  (s,
   match at_ s with
   | Finished | Aborted =>
       if list_truthy (card_data s) && print_result
       then Returns (Some (card_data s))
       else Returns None
   | Crashed e => Raises e
   | AtWhile | AtFor _ => Running
   end).

End Run.

End Handle.

(** ** More vocabulary: the log, cards and sites *)
Module Terms.
Import Soup OlxParser.

(** The levels of the log *)
Definition is_error (r : log_record) : bool :=
  match fst r with ERROR => true | _ => false end.
Definition is_warning (r : log_record) : bool :=
  match fst r with WARNING => true | _ => false end.
Definition is_info (r : log_record) : bool :=
  match fst r with INFO => true | _ => false end.

(** A record with a falsy value, as [check_data] tests it. *)
Definition incomplete (d : dict) : bool := negb (forallb truthy (values d)).

Section Library.

Context {tables : PyFloat.Unicode} {lib : Furl.Library}.

(** The card gives a record, and the card gives none and no exception. *)
Definition usable (card : Tag) : Prop :=
  exists d, prepare_card_data card = Return (Some d).

Definition skipped (card : Tag) : Prop :=
  prepare_card_data card = Return None.

End Library.

(** What the log and the result set of a state have to do with each
    other, and how far the result set can have grown. *)
Record ledger (goods_count : Z) (s : state) : Prop := {
  led_errors :
    List.length (filter is_error (log s))
    = match at_ s with Aborted => 1%nat | _ => 0%nat end;
  led_warnings :
    List.length (filter is_warning (log s))
    = List.length (filter incomplete (card_data s));
  led_infos :
    List.length (filter is_info (log s))
    = (List.length (card_data s)
       + match at_ s with Finished => 1 | _ => 0 end)%nat;
  led_for :
    match at_ s with
    | AtFor _ => (len (card_data s) <= goods_count)%Z
    | _ => True
    end;
  led_max : (len (card_data s) <= Z.max 0 goods_count)%Z
}.

(** [s] is empty or starts with a character of [p]. *)
Definition stops (p : ascii -> bool) (s : string) : bool :=
  match s with
  | EmptyString => true
  | String c _ => p c
  end.

(** The URL objects the model of the library makes of the two URLs of
    the program, and the listing URL as it prints it. *)
Definition site : FurlModel.parts :=
  {| FurlModel.scheme := Some "https"; FurlModel.userinfo := None;
     FurlModel.hostname := Some "www.olx.pl"; FurlModel.port := None;
     FurlModel.path := EmptyString; FurlModel.query := [];
     FurlModel.fragment := EmptyString |}.

Definition listing : FurlModel.parts :=
  {| FurlModel.scheme := Some "https"; FurlModel.userinfo := None;
     FurlModel.hostname := Some "www.olx.pl"; FurlModel.port := None;
     FurlModel.path := "/oferty/";
     FurlModel.query := [("search[order]", Some "created_at:desc")];
     FurlModel.fragment := EmptyString |}.

Definition listing_url : string :=
  "https://www.olx.pl/oferty/?search%5Border%5D=created_at%3Adesc".

(** A site that answers every request with the same page: one card
    that gives a record and one without the name/price container; and a
    parser for a page of cards that give no record. *)
Definition endless_site (url : string) : Response :=
  mk_Response 200 "shelf".

Definition shelf_parser (html : string) : Tag :=
  Examples.document [Examples.shelf_card; Examples.no_container_card].

(** A price with words after it, and a price below zero. *)
Definition haggle_card : Tag :=
  Examples.card "10"
    [Examples.container (Some "Desk") (Some "1 200,50 zł do negocjacji")].

Definition refund_card : Tag :=
  Examples.card "11" [Examples.container (Some "Voucher") (Some "-25,50 zł")].

Definition barren_parser (html : string) : Tag :=
  Examples.document [Examples.no_container_card; Examples.bare_image_card].

(** A site whose first page is there and whose second page is gone. *)
Definition one_page (url : string) : Response :=
  if String.eqb url (page_url 1) then mk_Response 200 "page 1"
  else mk_Response 404 "Not Found".

End Terms.

(** ** Strings *)
Module TextProps.
Import PyStr Terms.

Lemma all_chars_app p a b :
  all_chars p (a ++ b) = all_chars p a && all_chars p b.
Proof.
  induction a as [|c a IH]; cbn; [reflexivity|].
  rewrite IH. apply andb_assoc.
Qed.

Lemma all_chars_weaken (p q : ascii -> bool) s :
  (forall c, p c = true -> q c = true) ->
  all_chars p s = true -> all_chars q s = true.
Proof.
  intros Hpq. induction s as [|c s IH]; cbn; [reflexivity|].
  intros H. apply andb_true_iff in H. destruct H as [Hc Hs].
  rewrite (Hpq c Hc), (IH Hs). reflexivity.
Qed.

Lemma append_empty_r (s : string) : s ++ "" = s.
Proof. induction s as [|c s IH]; cbn; [reflexivity | rewrite IH; reflexivity]. Qed.

Lemma append_assoc (a b c : string) : (a ++ b) ++ c = a ++ b ++ c.
Proof. induction a as [|x a IH]; cbn; [reflexivity | rewrite IH; reflexivity]. Qed.

Lemma length_append (a b : string) :
  String.length (a ++ b) = (String.length a + String.length b)%nat.
Proof.
  induction a as [|c a IH]; [reflexivity|]. cbn. rewrite IH. reflexivity.
Qed.

Lemma all_chars_string_of_uint p u :
  all_chars p "0123456789" = true ->
  all_chars p (NilEmpty.string_of_uint u) = true.
Proof.
  intros Hp. cbn in Hp.
  repeat (apply andb_true_iff in Hp; destruct Hp as [? Hp]).
  induction u; cbn [NilEmpty.string_of_uint all_chars];
    [reflexivity | apply andb_true_iff; split; assumption ..].
Qed.

Lemma all_chars_string_of_int p z :
  all_chars p "0123456789-" = true ->
  all_chars p (NilZero.string_of_int (Z.to_int z)) = true.
Proof.
  intros Hp.
  assert (Hd : all_chars p "0123456789" = true).
  { change "0123456789-" with ("0123456789" ++ "-") in Hp.
    rewrite all_chars_app in Hp. apply andb_true_iff in Hp. apply Hp. }
  assert (Hu : forall u, all_chars p (NilZero.string_of_uint u) = true).
  { intros u. unfold NilZero.string_of_uint.
    destruct u; try apply all_chars_string_of_uint; try assumption.
    cbn in *. apply andb_true_iff in Hd. destruct Hd as [H0 _].
    rewrite H0. reflexivity. }
  unfold NilZero.string_of_int.
  destruct (Z.to_int z) as [u|u].
  - apply Hu.
  - cbn [all_chars]. rewrite Hu, andb_true_r.
    change "0123456789-" with ("0123456789" ++ "-") in Hp.
    rewrite all_chars_app in Hp. apply andb_true_iff in Hp.
    destruct Hp as [_ Hm]. cbn in Hm. rewrite andb_true_r in Hm. exact Hm.
Qed.

End TextProps.

(** ** The price text and [float] *)
Module PriceProps.
Import PyStr TextProps Soup OlxParser Spec Terms.

Lemma replace_spaces s : PyStr.replace s " " "" = drop_spaces s.
Proof.
  unfold PyStr.replace.
  induction s as [|c s IH]; [reflexivity|].
  cbn [PyStr.replace_from drop_spaces].
  unfold PyStr.startswith. cbn [PyStr.strip_prefix String.length Nat.sub].
  rewrite (Ascii.eqb_sym " " c).
  destruct (Ascii.eqb c " "); cbn [append]; rewrite IH; reflexivity.
Qed.

Lemma replace_commas s : PyStr.replace s "," "." = comma_to_point s.
Proof.
  unfold PyStr.replace.
  induction s as [|c s IH]; [reflexivity|].
  cbn [PyStr.replace_from comma_to_point].
  unfold PyStr.startswith. cbn [PyStr.strip_prefix String.length Nat.sub].
  rewrite (Ascii.eqb_sym "," c).
  destruct (Ascii.eqb c ","); cbn [append]; rewrite IH; reflexivity.
Qed.

(** The chain of [str] calls on the price text is the preparation the
    specification describes. *)
Lemma price_text_eq t :
  PyStr.split_head "zł" (PyStr.replace (PyStr.replace t " " "") "," ".")
  = price_text t.
Proof. rewrite replace_spaces, replace_commas. reflexivity. Qed.

Lemma digit_of_char d :
  (d < 10)%N -> PyFloat.digit_of (ascii_of_N (48 + d)) = Some d.
Proof.
  intros H.
  assert (Hd : (d = 0 \/ d = 1 \/ d = 2 \/ d = 3 \/ d = 4 \/ d = 5 \/ d = 6
                \/ d = 7 \/ d = 8 \/ d = 9)%N) by lia.
  repeat (destruct Hd as [Hd|Hd]; [subst d; reflexivity|]).
  subst d. reflexivity.
Qed.

Lemma digits_str_digits ds :
  Forall (fun d => d < 10)%N ds -> all_chars PyFloat.is_digit (digits_str ds) = true.
Proof.
  induction 1 as [|d ds Hd _ IH]; [reflexivity|].
  cbn [digits_str all_chars]. unfold PyFloat.is_digit at 1.
  rewrite (digit_of_char d Hd), IH. reflexivity.
Qed.

(** A digit is none of the characters the price preparation and [float]
    give a meaning to. *)
Lemma is_digit_plain c :
  PyFloat.is_digit c = true ->
  Ascii.eqb c " " = false /\ Ascii.eqb c "," = false
  /\ Ascii.eqb c "z" = false /\ Ascii.eqb c "_" = false
  /\ Ascii.eqb c "." = false /\ Ascii.eqb c "-" = false
  /\ Ascii.eqb c "+" = false /\ PyFloat.is_space c = false
  /\ PyFloat.is_ascii c = true.
Proof.
  destruct c as [[] [] [] [] [] [] [] []]; intros H;
    try discriminate H; repeat split; reflexivity.
Qed.

Lemma drop_spaces_app a b :
  drop_spaces (a ++ b) = drop_spaces a ++ drop_spaces b.
Proof.
  induction a as [|c a IH]; [reflexivity|].
  cbn [append drop_spaces]. destruct (Ascii.eqb c " "); [exact IH|].
  cbn [append]. rewrite IH. reflexivity.
Qed.

Lemma comma_to_point_app a b :
  comma_to_point (a ++ b) = comma_to_point a ++ comma_to_point b.
Proof.
  induction a as [|c a IH]; [reflexivity|].
  cbn [append comma_to_point]. rewrite IH. reflexivity.
Qed.

Lemma drop_spaces_digits s :
  all_chars PyFloat.is_digit s = true -> drop_spaces s = s.
Proof.
  induction s as [|c s IH]; [reflexivity|]. cbn [all_chars drop_spaces].
  intros H. apply andb_true_iff in H. destruct H as [Hc Hs].
  destruct (is_digit_plain c Hc) as [E _]. rewrite E, (IH Hs). reflexivity.
Qed.

Lemma comma_to_point_digits s :
  all_chars PyFloat.is_digit s = true -> comma_to_point s = s.
Proof.
  induction s as [|c s IH]; [reflexivity|]. cbn [all_chars comma_to_point].
  intros H. apply andb_true_iff in H. destruct H as [Hc Hs].
  destruct (is_digit_plain c Hc) as [_ [E _]]. rewrite E, (IH Hs). reflexivity.
Qed.

Lemma split_head_digits s r :
  all_chars PyFloat.is_digit s = true ->
  PyStr.split_head "zł" (s ++ r) = s ++ PyStr.split_head "zł" r.
Proof.
  induction s as [|c s IH]; [reflexivity|]. cbn [all_chars append].
  intros H. apply andb_true_iff in H. destruct H as [Hc Hs].
  destruct (is_digit_plain c Hc) as [_ [_ [E _]]].
  cbn [PyStr.split_head]. unfold PyStr.startswith.
  cbn [PyStr.strip_prefix]. rewrite (Ascii.eqb_sym "z" c), E, (IH Hs).
  reflexivity.
Qed.

Lemma more_digits_app ds r :
  Forall (fun d => d < 10)%N ds ->
  stops (fun c => negb (PyFloat.is_digit c) && negb (Ascii.eqb c "_")) r = true ->
  PyFloat.more_digits (digits_str ds ++ r) = (ds, r).
Proof.
  intros Hds Hr. induction Hds as [|d ds Hd _ IH].
  - destruct r as [|c r]; [reflexivity|]. cbn [digits_str append stops] in *.
    apply andb_true_iff in Hr. destruct Hr as [Hc Hu].
    apply negb_true_iff in Hc, Hu. unfold PyFloat.is_digit in Hc.
    cbn [PyFloat.more_digits].
    destruct (PyFloat.digit_of c); [discriminate|]. rewrite Hu. reflexivity.
  - cbn [digits_str append PyFloat.more_digits].
    rewrite (digit_of_char d Hd), IH. reflexivity.
Qed.

Lemma digitpart_app d ds r :
  Forall (fun d => d < 10)%N (d :: ds) ->
  stops (fun c => negb (PyFloat.is_digit c) && negb (Ascii.eqb c "_")) r = true ->
  PyFloat.digitpart (digits_str (d :: ds) ++ r) = Some (d :: ds, r).
Proof.
  intros Hds Hr. inversion Hds as [|? ? Hd Hds']; subst.
  cbn [digits_str append PyFloat.digitpart].
  rewrite (digit_of_char d Hd), (more_digits_app ds r Hds' Hr). reflexivity.
Qed.

Lemma rstrip_plain s :
  all_chars (fun c => negb (PyFloat.is_space c)) s = true ->
  PyFloat.rstrip s = s.
Proof.
  induction s as [|c s IH]; [reflexivity|]. cbn [all_chars PyFloat.rstrip].
  intros H. apply andb_true_iff in H. destruct H as [Hc Hs].
  apply negb_true_iff in Hc. rewrite (IH Hs), Hc. destruct s; reflexivity.
Qed.

(** The text of a decimal number: digits, and a point and digits when
    there are decimals. *)
Lemma number_decimal d ds decimals :
  Forall (fun d => d < 10)%N (d :: ds) ->
  Forall (fun d => d < 10)%N decimals ->
  PyFloat.number
    (digits_str (d :: ds)
     ++ match decimals with
        | [] => EmptyString
        | _ :: _ => "." ++ digits_str decimals
        end)
  = Some (d :: ds, decimals, EmptyString).
Proof.
  intros Hds Hdec. unfold PyFloat.number.
  destruct decimals as [|e es].
  - rewrite (digitpart_app d ds "" Hds eq_refl). reflexivity.
  - rewrite (digitpart_app d ds ("." ++ digits_str (e :: es)) Hds eq_refl).
    cbn [append].
    rewrite <- (append_empty_r (digits_str (e :: es))).
    rewrite (digitpart_app e es "" Hdec eq_refl). reflexivity.
Qed.

Lemma decimal_chars (p : ascii -> bool) ds decimals :
  (forall c, PyFloat.is_digit c = true -> p c = true) ->
  p "."%char = true ->
  Forall (fun d => d < 10)%N ds ->
  Forall (fun d => d < 10)%N decimals ->
  all_chars p
    (digits_str ds
     ++ match decimals with
        | [] => EmptyString
        | _ :: _ => "." ++ digits_str decimals
        end) = true.
Proof.
  intros Hp Hpoint Hds Hdec.
  rewrite all_chars_app. apply andb_true_iff. split.
  - apply (all_chars_weaken PyFloat.is_digit);
      [exact Hp | apply digits_str_digits, Hds].
  - destruct decimals as [|e es]; [reflexivity|].
    cbn [append all_chars]. rewrite Hpoint. cbn [andb].
    apply (all_chars_weaken PyFloat.is_digit);
      [exact Hp | apply digits_str_digits, Hdec].
Qed.

Lemma plain_all_chars s :
  all_chars PyFloat.is_ascii s = true -> PyFloat.plain s = true.
Proof.
  induction s as [|c s IH]; [reflexivity|]. cbn [all_chars PyFloat.plain].
  intros H. apply andb_true_iff in H. destruct H as [Hc Hs].
  rewrite Hc, (IH Hs). reflexivity.
Qed.

(** [float] on the text of a decimal number, with or without a minus
    sign in front: the double nearest to the number written. *)
Lemma parse_decimal (neg : bool) d ds decimals :
  Forall (fun d => d < 10)%N (d :: ds) ->
  Forall (fun d => d < 10)%N decimals ->
  PyFloat.parse
    ((if neg then "-" else EmptyString)
     ++ digits_str (d :: ds)
     ++ match decimals with
        | [] => EmptyString
        | _ :: _ => "." ++ digits_str decimals
        end)
  = Return (PyFloat.nearest neg
              (PyFloat.of_digits ((d :: ds) ++ decimals))
              (- Z.of_nat (List.length decimals))).
Proof.
  intros Hds Hdec.
  pose proof (number_decimal d ds decimals Hds Hdec) as Hnum.
  set (body := digits_str (d :: ds)
               ++ match decimals with
                  | [] => EmptyString
                  | _ :: _ => "." ++ digits_str decimals
                  end) in *.
  assert (Hplain : all_chars (fun c => negb (PyFloat.is_space c)) body = true).
  { apply decimal_chars; try assumption; [|reflexivity].
    intros c Hc.
    destruct (is_digit_plain c Hc) as [_ [_ [_ [_ [_ [_ [_ [E _]]]]]]]].
    rewrite E. reflexivity. }
  assert (Hfirst : exists c0 s0, body = String c0 s0
                                 /\ PyFloat.is_digit c0 = true).
  { subst body. inversion Hds as [|? ? Hd _]; subst.
    cbn [digits_str append]. eexists _, _. split; [reflexivity|].
    unfold PyFloat.is_digit. rewrite (digit_of_char d Hd). reflexivity. }
  destruct Hfirst as [c0 [s0 [E0 Hc0]]].
  destruct (is_digit_plain c0 Hc0) as [_ [_ [_ [_ [_ [Hm [Hp [Hsp _]]]]]]]].
  assert (Hsign : PyFloat.sign body = (false, body)).
  { rewrite E0. unfold PyFloat.sign.
    destruct c0 as [[] [] [] [] [] [] [] []]; try reflexivity; discriminate. }
  unfold PyFloat.parse, PyFloat.strip.
  destruct neg; cbn [append].
  - change (PyFloat.lstrip (String "-" body)) with (String "-" body).
    rewrite (rstrip_plain (String "-" body))
      by (cbn [all_chars]; rewrite Hplain; reflexivity).
    change (PyFloat.sign (String "-" body)) with (true, body).
    cbv beta iota. rewrite Hnum. cbn [PyFloat.exponent]. reflexivity.
  - assert (Hl : PyFloat.lstrip body = body).
    { rewrite E0. cbn [PyFloat.lstrip]. rewrite Hsp. reflexivity. }
    rewrite Hl, (rstrip_plain _ Hplain), Hsign.
    cbv beta iota. rewrite Hnum. cbn [PyFloat.exponent]. reflexivity.
Qed.

Lemma float_decimal {tables : PyFloat.Unicode} (neg : bool) d ds decimals :
  Forall (fun d => d < 10)%N (d :: ds) ->
  Forall (fun d => d < 10)%N decimals ->
  PyFloat.float
    ((if neg then "-" else EmptyString)
     ++ digits_str (d :: ds)
     ++ match decimals with
        | [] => EmptyString
        | _ :: _ => "." ++ digits_str decimals
        end)
  = Return (PyFloat.nearest neg
              (PyFloat.of_digits ((d :: ds) ++ decimals))
              (- Z.of_nat (List.length decimals))).
Proof.
  intros Hds Hdec. unfold PyFloat.float.
  assert (Hplain : PyFloat.plain
            ((if neg then "-" else EmptyString)
             ++ digits_str (d :: ds)
             ++ match decimals with
                | [] => EmptyString
                | _ :: _ => "." ++ digits_str decimals
                end) = true).
  { apply plain_all_chars. rewrite all_chars_app. apply andb_true_iff.
    split; [destruct neg; reflexivity|].
    apply decimal_chars; try assumption; [|reflexivity].
    intros c Hc. apply (is_digit_plain c Hc). }
  rewrite Hplain. apply parse_decimal; assumption.
Qed.

Lemma float_raises {tables : PyFloat.Unicode} s e :
  PyFloat.float s = Raise e -> e = ValueError.
Proof.
  unfold PyFloat.float, PyFloat.parse.
  destruct (PyFloat.plain s).
  - destruct (PyFloat.sign (PyFloat.strip s)) as [neg body].
    destruct (PyFloat.number body) as [[[ip fp] r]|].
    + destruct (PyFloat.exponent r); intros H; inversion H; reflexivity.
    + destruct (_ || _); [discriminate|].
      destruct (_ =? _)%string; intros H; inversion H; reflexivity.
  - destruct (PyFloat.float_unicode s); intros H; inversion H; reflexivity.
Qed.

(** What is left of a well-formed price once it is prepared. *)
Lemma price_text_price_string whole ds decimals :
  Forall (fun d => d < 10)%N ds ->
  Forall (fun d => d < 10)%N decimals ->
  drop_spaces whole = digits_str ds ->
  price_text (price_string whole decimals)
  = digits_str ds
    ++ match decimals with
       | [] => EmptyString
       | _ :: _ => "." ++ digits_str decimals
       end.
Proof.
  intros Hds Hdec Hwhole.
  pose proof (digits_str_digits ds Hds) as Dds.
  pose proof (digits_str_digits decimals Hdec) as Ddec.
  unfold price_text, price_string.
  rewrite !drop_spaces_app, Hwhole, !comma_to_point_app.
  rewrite (comma_to_point_digits _ Dds), (split_head_digits _ _ Dds).
  f_equal.
  destruct decimals as [|e es]; [reflexivity|].
  change (drop_spaces ("," ++ digits_str (e :: es)))
    with ("," ++ drop_spaces (digits_str (e :: es))).
  rewrite (drop_spaces_digits _ Ddec).
  change (comma_to_point ("," ++ digits_str (e :: es)))
    with ("." ++ comma_to_point (digits_str (e :: es))).
  rewrite (comma_to_point_digits _ Ddec).
  change (PyStr.split_head "zł"
            (("." ++ digits_str (e :: es)) ++ comma_to_point (drop_spaces " zł")))
    with ("." ++ PyStr.split_head "zł" (digits_str (e :: es) ++ "zł")).
  rewrite (split_head_digits _ _ Ddec).
  change (PyStr.split_head "zł" "zł") with "".
  rewrite append_empty_r. reflexivity.
Qed.

End PriceProps.

(** ** The model of the URL library *)
Module ModelProps.
Import PyStr TextProps Soup OlxParser Spec Terms.

(** What is made of unreserved characters is printed as it is. *)
Lemma quote_plus_unreserved s :
  all_chars FurlModel.unreserved s = true -> FurlModel.quote_plus s = s.
Proof.
  induction s as [|c s IH]; [reflexivity|]. cbn [all_chars FurlModel.quote_plus].
  intros H. apply andb_true_iff in H. destruct H as [Hc Hs].
  rewrite Hc, (IH Hs). reflexivity.
Qed.

Lemma quote_unreserved safe s :
  all_chars FurlModel.unreserved s = true -> FurlModel.quote safe s = s.
Proof.
  induction s as [|c s IH]; [reflexivity|]. cbn [all_chars FurlModel.quote].
  intros H. apply andb_true_iff in H. destruct H as [Hc Hs].
  rewrite Hc, (IH Hs). reflexivity.
Qed.

Lemma unreserved_no_percent c :
  FurlModel.unreserved c = true ->
  Ascii.eqb c "%" = false /\ FurlModel.segment_char c = true.
Proof.
  intros H. split.
  - destruct (Ascii.eqb c "%") eqn:E; [|reflexivity].
    apply Ascii.eqb_eq in E. subst c. discriminate H.
  - unfold FurlModel.segment_char. rewrite H. reflexivity.
Qed.

Lemma print_segment_unreserved s :
  all_chars FurlModel.unreserved s = true -> FurlModel.print_segment s = s.
Proof.
  intros H. unfold FurlModel.print_segment.
  assert (E : (if FurlModel.valid_encoded FurlModel.segment_char s
               then FurlModel.unquote s else s) = s).
  { assert (U : FurlModel.unquote s = s).
    { induction s as [|c s IH]; [reflexivity|].
      cbn [all_chars] in H. apply andb_true_iff in H. destruct H as [Hc Hs].
      destruct (unreserved_no_percent c Hc) as [Hp _].
      cbn [FurlModel.unquote]. rewrite Hp, (IH Hs). reflexivity. }
    rewrite U. destruct (FurlModel.valid_encoded _ _); reflexivity. }
  rewrite E. apply quote_unreserved, H.
Qed.

Lemma unreserved_str_int z :
  all_chars FurlModel.unreserved (str_int z) = true.
Proof. apply all_chars_string_of_int. reflexivity. Qed.

(** Splitting and joining again gives the string back. *)
Lemma split_on_nonempty sep cur s : split_on sep cur s <> [].
Proof.
  revert cur. induction s as [|c s IH]; intros cur; cbn [split_on].
  - discriminate.
  - destruct (Ascii.eqb c sep); [discriminate | apply IH].
Qed.

Lemma join_cons sep x y l :
  join sep (x :: y :: l) = x ++ sep ++ join sep (y :: l).
Proof. reflexivity. Qed.

Lemma join_split sep cur s :
  join (String sep EmptyString) (split_on sep cur s) = cur ++ s.
Proof.
  revert cur. induction s as [|c s IH]; intros cur; cbn [split_on].
  - cbn [join]. symmetry. apply append_empty_r.
  - destruct (Ascii.eqb c sep) eqn:E.
    + apply Ascii.eqb_eq in E. subst c.
      destruct (split_on sep EmptyString s) as [|y l] eqn:S;
        [exfalso; exact (split_on_nonempty _ _ _ S)|].
      rewrite join_cons, <- S, IH. reflexivity.
    + rewrite IH, append_assoc. reflexivity.
Qed.

Lemma split_on_unreserved cur s :
  all_chars FurlModel.unreserved cur = true ->
  all_chars (fun c => FurlModel.unreserved c || Ascii.eqb c "/") s = true ->
  Forall (fun seg => all_chars FurlModel.unreserved seg = true)
         (split_on "/" cur s).
Proof.
  revert cur. induction s as [|c s IH]; intros cur Hcur Hs; cbn [split_on].
  - constructor; [exact Hcur | constructor].
  - cbn [all_chars] in Hs. apply andb_true_iff in Hs. destruct Hs as [Hc Hs].
    destruct (Ascii.eqb c "/") eqn:E.
    + constructor; [exact Hcur|]. apply IH; [reflexivity | exact Hs].
    + apply IH; [|exact Hs]. rewrite all_chars_app, Hcur.
      rewrite orb_false_r in Hc. cbn [all_chars]. rewrite Hc. reflexivity.
Qed.

Lemma map_print_segment l :
  Forall (fun seg => all_chars FurlModel.unreserved seg = true) l ->
  map FurlModel.print_segment l = l.
Proof.
  induction 1 as [|x l Hx _ IH]; [reflexivity|].
  cbn [map]. rewrite (print_segment_unreserved x Hx), IH. reflexivity.
Qed.

(** A plain path is printed as it is. *)
Lemma print_path_plain b p :
  plain_path p = true -> FurlModel.print_path b p = p.
Proof.
  unfold plain_path. destruct p as [|c r]; [discriminate|].
  destruct (Ascii.eqb c "/") eqn:E.
  2:{ destruct c as [[] [] [] [] [] [] [] []]; try discriminate E;
        discriminate. }
  apply Ascii.eqb_eq in E. subst c. intros H.
  apply andb_true_iff in H. destruct H as [H _].
  cbn [all_chars] in H. cbn [orb FurlModel.unreserved andb] in H.
  assert (Hr : all_chars (fun c => FurlModel.unreserved c || Ascii.eqb c "/") r
               = true).
  { apply andb_true_iff in H. apply H. }
  unfold FurlModel.print_path.
  change (split_on "/" EmptyString (String "/" r))
    with (EmptyString :: split_on "/" EmptyString r).
  pose proof (split_on_unreserved EmptyString r eq_refl Hr) as Hall.
  pose proof (join_split "/" EmptyString r) as Hj.
  destruct (split_on "/" EmptyString r) as [|y l] eqn:S;
    [exfalso; exact (split_on_nonempty _ _ _ S)|].
  rewrite (map_print_segment _ Hall), Hj. reflexivity.
Qed.

(** A path that is not empty is printed with a slash in front when the
    URL has a network location. *)
Lemma print_path_slash c p :
  exists r, FurlModel.print_path true (String c p) = String "/" r.
Proof.
  unfold FurlModel.print_path.
  destruct (split_on "/" EmptyString (String c p)) as [|[|x s] [|y l]];
    eexists; reflexivity.
Qed.

(** *** The two URLs of the class *)

Lemma load_base : FurlModel.load (Some BASE_URL) = Some site.
Proof. reflexivity. Qed.

Lemma load_listing : FurlModel.load (Some OFERTY_URL) = Some listing.
Proof. reflexivity. Qed.

Lemma join_empty_cons a l : join "" (a :: l) = a ++ join "" l.
Proof.
  destruct l as [|b l]; [cbn; symmetry; apply append_empty_r | reflexivity].
Qed.

Lemma join_items x l :
  join "&" (x :: l) = x ++ join "" (map (fun i => "&" ++ i) l).
Proof.
  revert x. induction l as [|y l IH]; intros x.
  - cbn. symmetry. apply append_empty_r.
  - rewrite join_cons, IH. cbn [map]. rewrite join_empty_cons, !append_assoc.
    reflexivity.
Qed.

Lemma item_str_plain kv :
  plain_param kv = true ->
  FurlModel.item_str (fst kv, Some (Furl.str (snd kv))) = param_str kv.
Proof.
  unfold plain_param, FurlModel.item_str, param_str. intros H.
  apply andb_true_iff in H. destruct H as [Hk Hv]. cbn [fst snd].
  rewrite (quote_plus_unreserved _ Hk), (quote_plus_unreserved _ Hv).
  reflexivity.
Qed.

Lemma items_plain ps :
  forallb plain_param ps = true ->
  map FurlModel.item_str
      (map (fun kv => (fst kv, Some (Furl.str (snd kv)))) ps)
  = map param_str ps.
Proof.
  induction ps as [|kv ps IH]; [reflexivity|]. cbn [forallb map].
  intros H. apply andb_true_iff in H. destruct H as [Hkv Hps].
  rewrite (item_str_plain kv Hkv), (IH Hps). reflexivity.
Qed.

(** [get_url] on the listing URL with plain parameters, and with a plain
    path too. *)
Lemma get_url_listing path ps :
  (forall p, path = Some p -> plain_path p = true) ->
  forallb plain_param ps = true ->
  get_url (lib := FurlModel.model) OFERTY_URL path (Some ps)
  = Return ("https://www.olx.pl"
            ++ match path with
               | Some p => p
               | None => "/oferty/"
               end
            ++ "?search%5Border%5D=created_at%3Adesc"
            ++ join "" (map (fun kv => "&" ++ param_str kv) ps)).
Proof.
  intros Hp Hps. unfold get_url, new_furl.
  change (@Furl.load FurlModel.model (Some OFERTY_URL))
    with (FurlModel.load (Some OFERTY_URL)).
  rewrite load_listing. cbn [bind].
  assert (Hpath :
    FurlModel.path
      match path with
      | Some (String _ _ as p) => FurlModel.set_path p listing
      | _ => listing
      end
    = match path with Some p => p | None => "/oferty/" end).
  { destruct path as [[|c p]|]; try reflexivity.
    - specialize (Hp EmptyString eq_refl). discriminate Hp.
    - cbn [FurlModel.set_path FurlModel.path].
      apply print_path_plain, Hp. reflexivity. }
  assert (Hrest : forall f,
    FurlModel.scheme f = Some "https" ->
    FurlModel.netloc f = Some "www.olx.pl" ->
    FurlModel.query f = [("search[order]", Some "created_at:desc")] ->
    FurlModel.fragment f = EmptyString ->
    FurlModel.url match ps with
                  | _ :: _ => FurlModel.add_args ps f
                  | [] => f
                  end
    = "https://www.olx.pl" ++ FurlModel.path f
      ++ "?search%5Border%5D=created_at%3Adesc"
      ++ join "" (map (fun kv => "&" ++ param_str kv) ps)).
  { intros f Hs Hn Hq Hf.
    assert (E : FurlModel.url match ps with
                              | _ :: _ => FurlModel.add_args ps f
                              | [] => f
                              end
                = FurlModel.url (FurlModel.add_args ps f)).
    { destruct ps; [|reflexivity]. unfold FurlModel.add_args, FurlModel.url.
      cbn [FurlModel.scheme FurlModel.query FurlModel.path FurlModel.fragment
           map]. rewrite app_nil_r. reflexivity. }
    rewrite E. unfold FurlModel.url.
    assert (N : FurlModel.netloc (FurlModel.add_args ps f) = FurlModel.netloc f)
      by reflexivity.
    rewrite N, Hn.
    cbn [FurlModel.add_args FurlModel.scheme FurlModel.path FurlModel.query
         FurlModel.fragment].
    rewrite Hs, Hq, Hf. cbn [app map]. rewrite join_items.
    rewrite (items_plain ps Hps), map_map.
    change (FurlModel.item_str ("search[order]", Some "created_at:desc"))
      with "search%5Border%5D=created_at%3Adesc".
    rewrite append_empty_r. cbn [append]. reflexivity. }
  change (@Furl.set_path FurlModel.model) with FurlModel.set_path.
  change (@Furl.add_args FurlModel.model) with FurlModel.add_args.
  change (@Furl.url FurlModel.model) with FurlModel.url.
  f_equal. rewrite <- Hpath.
  apply Hrest; destruct path as [[|c p]|]; reflexivity.
Qed.

(** The URLs of the pages: the listing URL as the library prints it,
    and from page 2 on the page number after it. *)
Lemma page_url_model (page : Z) :
  page_url (lib := FurlModel.model) page
  = listing_url
    ++ (if (1 <? page)%Z then "&page=" ++ str_int page else EmptyString).
Proof.
  unfold page_url, page_params. destruct (1 <? page)%Z.
  - rewrite (get_url_listing None [("page", Furl.AInt page)]).
    + reflexivity.
    + discriminate.
    + cbn [forallb]. unfold plain_param. cbn [fst snd Furl.str].
      fold (str_int page). rewrite unreserved_str_int. reflexivity.
  - reflexivity.
Qed.

(** What starts with the base URL and goes on with nothing or with a
    slash is a URL of the site. *)
Lemma load_site rest :
  rest = EmptyString \/ (exists r, rest = String "/" r) ->
  exists f, FurlModel.load (Some (BASE_URL ++ rest)) = Some f
            /\ FurlModel.hostname f = Some "www.olx.pl".
Proof.
  intros [E | [r E]]; subst rest.
  - exists site. split; reflexivity.
  - assert (S : FurlModel.split_scheme (BASE_URL ++ String "/" r)
                = (Some "https", "//www.olx.pl" ++ String "/" r))
      by reflexivity.
    assert (N : FurlModel.split_netloc ("//www.olx.pl" ++ String "/" r)
                = (Some "www.olx.pl", String "/" r))
      by reflexivity.
    assert (P : FurlModel.parse_netloc "www.olx.pl"
                = Some (None, "www.olx.pl", None))
      by reflexivity.
    unfold FurlModel.load. rewrite S, N.
    destruct (break_on (fun c => Ascii.eqb c "#") (String "/" r)) as [r3 frag].
    destruct (break_on (fun c => Ascii.eqb c "?") r3) as [p q].
    rewrite P. eexists. split; reflexivity.
Qed.

(** [get_url] on the base URL with a path. *)
Lemma get_url_base path :
  get_url (lib := FurlModel.model) BASE_URL path None
  = Return (BASE_URL
            ++ match path with
               | Some (String _ _ as p) => FurlModel.print_path true p
               | _ => EmptyString
               end).
Proof.
  unfold get_url, new_furl.
  change (@Furl.load FurlModel.model (Some BASE_URL))
    with (FurlModel.load (Some BASE_URL)).
  rewrite load_base. cbn [bind].
  change (@Furl.set_path FurlModel.model) with FurlModel.set_path.
  change (@Furl.url FurlModel.model) with FurlModel.url.
  destruct path as [[|c p]|]; try reflexivity.
  unfold FurlModel.url, FurlModel.set_path.
  cbn [FurlModel.scheme FurlModel.netloc FurlModel.hostname FurlModel.userinfo
       FurlModel.port FurlModel.path FurlModel.query FurlModel.fragment site].
  change (FurlModel.has_netloc site) with true.
  cbn [FurlModel.netloc_str append]. rewrite append_empty_r. reflexivity.
Qed.

(** A URL of the site has the host of the site. *)
Lemma is_url_site rest :
  rest = EmptyString \/ (exists r, rest = String "/" r) ->
  is_url (lib := FurlModel.model) (Some (BASE_URL ++ rest))
  = Return (Some "www.olx.pl").
Proof.
  intros H. unfold is_url, new_furl.
  change (@Furl.load FurlModel.model) with FurlModel.load.
  change (@Furl.host FurlModel.model) with FurlModel.hostname.
  destruct (load_site rest H) as [f [Hf Hh]].
  rewrite Hf. cbn [bind]. rewrite Hh. reflexivity.
Qed.

(** What [get_url] makes of the listing URL is a URL of the site. *)
Lemma get_url_listing_is_url path ps :
  (forall p, path = Some p -> plain_path p = true) ->
  forallb plain_param ps = true ->
  exists u, get_url (lib := FurlModel.model) OFERTY_URL path (Some ps)
            = Return u
            /\ is_url (lib := FurlModel.model) (Some u)
               = Return (Some "www.olx.pl").
Proof.
  intros Hp Hps. rewrite (get_url_listing path ps Hp Hps).
  eexists. split; [reflexivity|].
  apply (is_url_site (match path with Some p => p | None => "/oferty/" end
                      ++ "?search%5Border%5D=created_at%3Adesc"
                      ++ join "" (map (fun kv => "&" ++ param_str kv) ps))).
  right. destruct path as [p|].
  - specialize (Hp p eq_refl). unfold plain_path in Hp.
    destruct p as [|c r]; [discriminate Hp|].
    destruct (Ascii.eqb c "/") eqn:Ec.
    + apply Ascii.eqb_eq in Ec. subst c. eexists. reflexivity.
    + destruct c as [[] [] [] [] [] [] [] []]; try discriminate Ec;
        discriminate Hp.
  - eexists. reflexivity.
Qed.

(** Whatever the link of a card is, the URL made from it on the base of
    the site has the host of the site. *)
Lemma get_url_base_is_url href :
  exists u, get_url (lib := FurlModel.model) BASE_URL href None = Return u
            /\ is_url (lib := FurlModel.model) (Some u)
               = Return (Some "www.olx.pl").
Proof.
  rewrite get_url_base. eexists. split; [reflexivity|].
  unfold is_url, new_furl.
  change (@Furl.load FurlModel.model) with FurlModel.load.
  change (@Furl.host FurlModel.model) with FurlModel.hostname.
  destruct (load_site match href with
                      | Some (String _ _ as p) => FurlModel.print_path true p
                      | _ => EmptyString
                      end) as [f [Hf Hh]].
  { destruct href as [[|c p]|]; try (left; reflexivity).
    right. apply print_path_slash. }
  rewrite Hf. cbn [bind]. rewrite Hh. reflexivity.
Qed.

(** A plain path has no host, and on the base URL it is put after it. *)
Lemma is_url_plain_path p :
  plain_path p = true ->
  is_url (lib := FurlModel.model) (Some p) = Return None.
Proof.
  intros H. unfold is_url, new_furl.
  change (@Furl.load FurlModel.model) with FurlModel.load.
  change (@Furl.host FurlModel.model) with FurlModel.hostname.
  assert (E : exists f, FurlModel.load (Some p) = Some f
                        /\ FurlModel.hostname f = None).
  { unfold plain_path in H. destruct p as [|c r]; [discriminate|].
    destruct (Ascii.eqb c "/") eqn:Ec.
    2:{ destruct c as [[] [] [] [] [] [] [] []]; try discriminate Ec;
          discriminate. }
    apply Ascii.eqb_eq in Ec. subst c.
    apply andb_true_iff in H. destruct H as [_ H].
    cbn [single_slashes] in H.
    unfold FurlModel.load.
    assert (S : FurlModel.split_scheme (String "/" r) = (None, String "/" r))
      by reflexivity.
    rewrite S.
    assert (N : FurlModel.split_netloc (String "/" r) = (None, String "/" r)).
    { destruct r as [|d r]; [reflexivity|].
      apply andb_true_iff in H. destruct H as [H _].
      cbn [Ascii.eqb Bool.eqb andb negb] in H.
      destruct d as [[] [] [] [] [] [] [] []]; try reflexivity.
      discriminate H. }
    rewrite N.
    destruct (break_on (fun c => Ascii.eqb c "#") (String "/" r)) as [r3 frag].
    destruct (break_on (fun c => Ascii.eqb c "?") r3) as [p q].
    eexists. split; reflexivity. }
  destruct E as [f [Hf Hh]]. rewrite Hf. cbn [bind]. rewrite Hh. reflexivity.
Qed.

Lemma get_url_base_plain p :
  plain_path p = true ->
  get_url (lib := FurlModel.model) BASE_URL (Some p) None
  = Return (BASE_URL ++ p).
Proof.
  intros H. rewrite get_url_base.
  destruct p as [|c r]; [discriminate H|].
  rewrite (print_path_plain true _ H). reflexivity.
Qed.

End ModelProps.

(** ** [prepare_card_data] *)
Module CardProps.
Import PyStr TextProps PriceProps ModelProps Soup OlxParser Spec Examples Terms.

Lemma bind_return_inv {A B} (r : result A) (k : A -> result B) b :
  bind r k = Return b -> exists a, r = Return a /\ k a = Return b.
Proof.
  destruct r as [a|e]; cbn; intro H; [|discriminate].
  exists a. split; [reflexivity | assumption].
Qed.

Lemma bind_raise_inv {A B} (r : result A) (k : A -> result B) e :
  bind r k = Raise e ->
  r = Raise e \/ exists a, r = Return a /\ k a = Raise e.
Proof.
  destruct r as [a|e']; cbn; intro H.
  - right. exists a. split; [reflexivity | assumption].
  - left. inversion H. reflexivity.
Qed.

Section Library.

Context {tables : PyFloat.Unicode} {lib : Furl.Library}.

(** The library raises nothing but [ValueError]. *)
Lemma new_furl_raises u e : new_furl u = Raise e -> e = ValueError.
Proof.
  unfold new_furl. destruct (Furl.load u); intros H; inversion H; reflexivity.
Qed.

Lemma is_url_raises u e : is_url u = Raise e -> e = ValueError.
Proof.
  unfold is_url. intros H.
  destruct (bind_raise_inv _ _ _ H) as [H' | [f [_ H']]];
    [exact (new_furl_raises _ _ H') | discriminate H'].
Qed.

Lemma get_url_raises base path params e :
  get_url base path params = Raise e -> e = ValueError.
Proof.
  unfold get_url. intros H.
  destruct (bind_raise_inv _ _ _ H) as [H' | [f [_ H']]];
    [exact (new_furl_raises _ _ H') | discriminate H'].
Qed.

(** [is_url] returns the host of the URL object, and raises when the
    library makes none. *)
Lemma is_url_load u :
  match Furl.load u with
  | Some f => is_url u = Return (Furl.host f)
  | None => is_url u = Raise ValueError
  end.
Proof. unfold is_url, new_furl. destruct (Furl.load u); reflexivity. Qed.

(** [get_url] prints the URL object of the base with the path replaced,
    when a path that is not empty is given, and the parameters added,
    when parameters are given and there is at least one. *)
Lemma get_url_load base path params :
  match Furl.load (Some base) with
  | Some f =>
      get_url base path params
      = Return (Furl.url (build f (given_path path) (given_params params)))
  | None => get_url base path params = Raise ValueError
  end.
Proof.
  unfold get_url, new_furl, build, given_path, given_params.
  destruct (Furl.load (Some base)); [|reflexivity].
  destruct path as [[|c p]|]; destruct params as [[|kv ps]|]; reflexivity.
Qed.

Lemma link_raises card e : link card = Raise e -> e = ValueError.
Proof.
  unfold link. destruct (find card "a" None) as [a|]; [|discriminate].
  intros H. destruct (bind_raise_inv _ _ _ H) as [H' | [h [_ H']]].
  - exact (is_url_raises _ _ H').
  - destruct (not_ h); [|discriminate H'].
    destruct (bind_raise_inv _ _ _ H') as [H'' | [u [_ H'']]];
      [exact (get_url_raises _ _ _ _ H'') | discriminate H''].
Qed.

Lemma image_test_raises card e : image_test card = Raise e -> e = ValueError.
Proof.
  unfold image_test. destruct (find card "img" None) as [i|]; [|discriminate].
  intros H. destruct (bind_raise_inv _ _ _ H) as [H' | [h [_ H']]];
    [exact (is_url_raises _ _ H') | discriminate H'].
Qed.

Lemma read_price_raises container e :
  read_price container = Raise e ->
  e = ValueError
  /\ exists p, price_node container = Some p
               /\ PyFloat.float
                    (PyStr.split_head "zł"
                       (PyStr.replace (PyStr.replace (get_text p) " " "")
                                      "," ".")) = Raise e.
Proof.
  unfold read_price. destruct (price_node container) as [p|]; [|discriminate].
  intros H. destruct (bind_raise_inv _ _ _ H) as [H' | [x [_ H']]];
    [|discriminate H'].
  split; [exact (float_raises _ _ H')|]. exists p. split; [reflexivity|exact H'].
Qed.

(** [prepare_card_data] in stages: the link, the image test, the
    container, the price, the record. *)
Lemma prepare_card_data_stages card :
  prepare_card_data card
  = (card_url <- link card ;;
     rejected <- image_test card ;;
     if rejected then Return None
     else
       match find card "div" (Some "css-u2ayx9") with
       | None => Return None
       | Some container =>
           price <- read_price container ;;
           Return (Some (record_of card container card_url price))
       end).
Proof.
  unfold prepare_card_data, link, image_test, read_price, record_of,
    image_source, price_node, heading, state_label, eq_str.
  destruct (find card "a" None) as [a|].
  - destruct (is_url (get a "href")) as [h|e]; [|reflexivity]. cbn [bind].
    destruct (not_ h).
    + destruct (get_url BASE_URL (get a "href") None) as [u|e];
        [|reflexivity]. cbn [bind].
      destruct (find card "img" None) as [i|].
      * destruct (is_url (get i "src")) as [h'|e]; [|reflexivity]. cbn [bind].
        destruct (not_ h'); [reflexivity|].
        destruct (find card "div" (Some "css-u2ayx9")) as [c|]; [|reflexivity].
        destruct (find c "p" (Some "css-10b0gli er34gjf0")) as [p|];
          destruct (find c "h6" (Some "css-16v5mdi er34gjf0"));
          destruct (find card "span" (Some "css-3lkihg"));
          cbn [bind option_map];
          try destruct (PyFloat.float _); reflexivity.
      * cbn [bind].
        destruct (find card "div" (Some "css-u2ayx9")) as [c|]; [|reflexivity].
        destruct (find c "p" (Some "css-10b0gli er34gjf0")) as [p|];
          destruct (find c "h6" (Some "css-16v5mdi er34gjf0"));
          destruct (find card "span" (Some "css-3lkihg"));
          cbn [bind option_map];
          try destruct (PyFloat.float _); reflexivity.
    + destruct (find card "img" None) as [i|].
      * destruct (is_url (get i "src")) as [h'|e]; [|reflexivity]. cbn [bind].
        destruct (not_ h'); [reflexivity|].
        destruct (find card "div" (Some "css-u2ayx9")) as [c|]; [|reflexivity].
        destruct (find c "p" (Some "css-10b0gli er34gjf0")) as [p|];
          destruct (find c "h6" (Some "css-16v5mdi er34gjf0"));
          destruct (find card "span" (Some "css-3lkihg"));
          cbn [bind option_map];
          try destruct (PyFloat.float _); reflexivity.
      * cbn [bind].
        destruct (find card "div" (Some "css-u2ayx9")) as [c|]; [|reflexivity].
        destruct (find c "p" (Some "css-10b0gli er34gjf0")) as [p|];
          destruct (find c "h6" (Some "css-16v5mdi er34gjf0"));
          destruct (find card "span" (Some "css-3lkihg"));
          cbn [bind option_map];
          try destruct (PyFloat.float _); reflexivity.
  - cbn [bind].
    destruct (find card "img" None) as [i|].
    + destruct (is_url (get i "src")) as [h'|e]; [|reflexivity]. cbn [bind].
      destruct (not_ h'); [reflexivity|].
      destruct (find card "div" (Some "css-u2ayx9")) as [c|]; [|reflexivity].
      destruct (find c "p" (Some "css-10b0gli er34gjf0")) as [p|];
        destruct (find c "h6" (Some "css-16v5mdi er34gjf0"));
        destruct (find card "span" (Some "css-3lkihg"));
        cbn [bind option_map];
        try destruct (PyFloat.float _); reflexivity.
    + cbn [bind].
      destruct (find card "div" (Some "css-u2ayx9")) as [c|]; [|reflexivity].
      destruct (find c "p" (Some "css-10b0gli er34gjf0")) as [p|];
        destruct (find c "h6" (Some "css-16v5mdi er34gjf0"));
        destruct (find card "span" (Some "css-3lkihg"));
        cbn [bind option_map];
        try destruct (PyFloat.float _); reflexivity.
Qed.

(** The outcome of [prepare_card_data], case by case. *)
Lemma prepare_card_data_cases card :
  (exists e, link card = Raise e /\ prepare_card_data card = Raise e)
  \/ (exists url e, link card = Return url /\ image_test card = Raise e
                    /\ prepare_card_data card = Raise e)
  \/ (exists url, link card = Return url /\ image_test card = Return true
                  /\ prepare_card_data card = Return None)
  \/ (exists url, link card = Return url /\ image_test card = Return false
                  /\ container_missing card
                  /\ prepare_card_data card = Return None)
  \/ (exists url container,
        link card = Return url /\ image_test card = Return false
        /\ find card "div" (Some "css-u2ayx9") = Some container
        /\ prepare_card_data card
           = (price <- read_price container ;;
              Return (Some (record_of card container url price)))).
Proof.
  rewrite prepare_card_data_stages. unfold container_missing.
  destruct (link card) as [url|e]; cbn [bind].
  2:{ left. exists e. split; reflexivity. }
  right.
  destruct (image_test card) as [[|]|e]; cbn [bind].
  3:{ left. exists url, e. repeat split. }
  - right. left. exists url. repeat split.
  - right. right.
    destruct (find card "div" (Some "css-u2ayx9")) as [c|].
    + right. exists url, c. repeat split.
    + left. exists url. repeat split.
Qed.

Lemma prepare_card_data_raises card e :
  prepare_card_data card = Raise e -> e = ValueError.
Proof.
  destruct (prepare_card_data_cases card)
    as [[e' [L E]] | [[url [e' [_ [I E]]]] | [[url [_ [_ E]]]
       | [[url [_ [_ [_ E]]]] | [url [c [_ [_ [_ E]]]]]]]]];
    rewrite E; try discriminate.
  - intros H. inversion H. subst e'. exact (link_raises _ _ L).
  - intros H. inversion H. subst e'. exact (image_test_raises _ _ I).
  - intros H. destruct (bind_raise_inv _ _ _ H) as [H' | [v [_ H']]];
      [|discriminate H'].
    apply (read_price_raises _ _ H').
Qed.

Lemma prepare_card_data_record card d :
  prepare_card_data card = Return (Some d) ->
  exists url container price,
    link card = Return url /\ image_test card = Return false
    /\ find card "div" (Some "css-u2ayx9") = Some container
    /\ read_price container = Return price
    /\ d = record_of card container url price.
Proof.
  intros Hd.
  destruct (prepare_card_data_cases card)
    as [[e' [L E]] | [[url [e' [_ [I E]]]] | [[url [_ [_ E]]]
       | [[url [_ [_ [_ E]]]] | [url [c [L [I [Hc E]]]]]]]]];
    rewrite E in Hd; try discriminate Hd.
  destruct (bind_return_inv _ _ _ Hd) as [v [Hv Hret]].
  exists url, c, v. inversion Hret. repeat split; assumption.
Qed.

Lemma prepare_card_data_made card d :
  prepare_card_data card = Return (Some d) -> made_by_extraction d.
Proof.
  intros H. unfold made_by_extraction.
  destruct (prepare_card_data_record card d H)
    as [url [c [v [_ [_ [_ [_ E]]]]]]].
  subst d. repeat split. exists card. exact H.
Qed.

Lemma made_truthy d : made_by_extraction d -> dict_truthy d = true.
Proof.
  intros [Hk _]. destruct d; [discriminate | reflexivity].
Qed.

(** With a library that makes a URL object of the two URLs of the
    class, [get_url] on them returns. *)
Lemma get_url_base_returns {accepted : Accepts lib} path :
  exists u, get_url BASE_URL path None = Return u.
Proof.
  unfold get_url, new_furl.
  destruct (Furl.load (Some BASE_URL)) eqn:E;
    [|exfalso; exact (accepts_base E)].
  cbn [bind]. eexists. reflexivity.
Qed.

Lemma get_url_page {accepted : Accepts lib} page :
  get_url OFERTY_URL None (page_params page) = Return (page_url page).
Proof.
  unfold page_url, get_url, new_furl.
  destruct (Furl.load (Some OFERTY_URL)) eqn:E;
    [|exfalso; exact (accepts_listing E)].
  reflexivity.
Qed.

(** C1 (as amended): [prepare_card_data] returns [None] exactly when the
    link step raised nothing and either the card has an image for which
    [is_url] of its [src] ([None] when it has none) is falsy, or the
    image passed and there is no name/price container.  A card that
    passes both tests gives a record as soon as the price can be read,
    in particular without a price node; in a record a missing
    identifier, anchor, image, heading, price node or state label leaves
    [None] in its field.  A card without an anchor has no link and
    raises nothing for it, and so for the image.  The only exception is
    [ValueError]: it comes from the library that rejects the [href] of
    the anchor or the [src] of the image, or from [float] on the text
    of the price node. *)
Theorem prepare_card_data_none_iff (card : Tag) :
  (prepare_card_data card = Return None
   <-> (exists url, link card = Return url)
       /\ (image_rejected card
           \/ (image_test card = Return false /\ container_missing card)))
  /\ (forall d, prepare_card_data card = Return (Some d) ->
        exists url container,
          link card = Return url /\ image_test card = Return false
          /\ find card "div" (Some "css-u2ayx9") = Some container
          /\ keys d = record_keys
          /\ (get card "id" = None -> getitem d "card_id" = Some VNone)
          /\ (find card "a" None = None ->
              getitem d "card_url" = Some VNone)
          /\ (find card "img" None = None ->
              getitem d "img_url" = Some VNone)
          /\ (heading container = None -> getitem d "name" = Some VNone)
          /\ (price_node container = None ->
              getitem d "price" = Some VNone)
          /\ (state_label card = None -> getitem d "state" = Some VNone))
  /\ (forall url container,
        link card = Return url ->
        image_test card = Return false ->
        find card "div" (Some "css-u2ayx9") = Some container ->
        (price_node container = None
         \/ (exists p x,
               price_node container = Some p
               /\ PyFloat.float
                    (PyStr.split_head "zł"
                       (PyStr.replace (PyStr.replace (get_text p) " " "")
                                      "," ".")) = Return x)) ->
        exists d, prepare_card_data card = Return (Some d))
  /\ (find card "a" None = None -> link card = Return None)
  /\ (find card "img" None = None -> image_test card = Return false)
  /\ (forall e, prepare_card_data card = Raise e ->
        e = ValueError
        /\ ((exists a, find card "a" None = Some a
                       /\ (is_url (get a "href") = Raise e
                           \/ get_url BASE_URL (get a "href") None = Raise e))
            \/ (exists i, find card "img" None = Some i
                          /\ is_url (get i "src") = Raise e)
            \/ (exists container p,
                  find card "div" (Some "css-u2ayx9") = Some container
                  /\ price_node container = Some p
                  /\ PyFloat.float
                       (PyStr.split_head "zł"
                          (PyStr.replace (PyStr.replace (get_text p) " " "")
                                         "," ".")) = Raise e))).
Proof.
  split; [|split; [|split; [|split; [|split]]]].
  - unfold image_rejected, container_missing.
    destruct (prepare_card_data_cases card)
      as [[e' [L E]] | [[url [e' [L [I E]]]] | [[url [L [I E]]]
         | [[url [L [I [M E]]]] | [url [c [L [I [Hc E]]]]]]]]]; rewrite E.
    + split; [discriminate|]. intros [[url Hu] _]. congruence.
    + split; [discriminate|]. intros [_ [H | [H _]]]; congruence.
    + split; [|reflexivity]. intros _. split; [exists url; exact L|].
      left. exact I.
    + split; [|reflexivity]. intros _. split; [exists url; exact L|].
      right. split; assumption.
    + split.
      * destruct (read_price c); cbn [bind]; discriminate.
      * intros [_ [H | [_ H]]]; [congruence|].
        unfold container_missing in H. congruence.
  - intros d Hd.
    destruct (prepare_card_data_record card d Hd)
      as [url [c [v [L [I [Hc [Hv E]]]]]]].
    exists url, c. subst d.
    split; [exact L|]. split; [exact I|]. split; [exact Hc|].
    split; [reflexivity|].
    unfold record_of, image_source, link in *.
    cbn [getitem String.eqb Ascii.eqb Bool.eqb].
    repeat split.
    + intros H. rewrite H. reflexivity.
    + intros H. rewrite H in L. inversion L. reflexivity.
    + intros H. rewrite H. reflexivity.
    + intros H. rewrite H. reflexivity.
    + intros H. unfold read_price in Hv. rewrite H in Hv. inversion Hv.
      reflexivity.
    + intros H. rewrite H. reflexivity.
  - intros url c L I Hc Hp.
    rewrite prepare_card_data_stages, L, I, Hc. cbn [bind].
    unfold read_price.
    destruct Hp as [Hp | [p [x [Hp Hx]]]]; rewrite Hp; [|rewrite Hx];
      cbn [bind]; eexists; reflexivity.
  - intros H. unfold link. rewrite H. reflexivity.
  - intros H. unfold image_test. rewrite H. reflexivity.
  - intros e He. split; [exact (prepare_card_data_raises _ _ He)|].
    destruct (prepare_card_data_cases card)
      as [[e' [L E]] | [[url [e' [L [I E]]]] | [[url [L [I E]]]
         | [[url [L [I [M E]]]] | [url [c [L [I [Hc E]]]]]]]]];
      rewrite E in He; try discriminate He.
    + inversion He. subst e'. left.
      unfold link in L. destruct (find card "a" None) as [a|];
        [|discriminate L].
      exists a. split; [reflexivity|].
      destruct (bind_raise_inv _ _ _ L) as [H' | [h [_ H']]];
        [left; exact H'|].
      destruct (not_ h); [|discriminate H'].
      destruct (bind_raise_inv _ _ _ H') as [H'' | [u [_ H'']]];
        [right; exact H'' | discriminate H''].
    + inversion He. subst e'. right. left.
      unfold image_test in I. destruct (find card "img" None) as [i|];
        [|discriminate I].
      exists i. split; [reflexivity|].
      destruct (bind_raise_inv _ _ _ I) as [H' | [h [_ H']]];
        [exact H' | discriminate H'].
    + right. right.
      destruct (bind_raise_inv _ _ _ He) as [H' | [v [_ H']]];
        [|discriminate H'].
      destruct (read_price_raises _ _ H') as [_ [p [Hp Hf]]].
      exists c, p. repeat split; assumption.
Qed.

(** C3: on a card whose price text is the marker "Zadarmo",
    [prepare_card_data] compares the price tag itself with the marker,
    which is never equal, and then gives the marker to [float]: the
    outcome is [ValueError], not a record with price 0. *)
Theorem free_card_raises :
  (forall p, eq_str p "Zadarmo" = false)
  /\ option_map get_text
       (match find free_card "div" (Some "css-u2ayx9") with
        | Some c => price_node c
        | None => None
        end) = Some "Zadarmo"
  /\ prepare_card_data free_card = Raise ValueError.
Proof. repeat split. Qed.

(** The price of a card that reaches the price step. *)
Lemma prepare_card_data_price card container url p :
  link card = Return url ->
  image_test card = Return false ->
  find card "div" (Some "css-u2ayx9") = Some container ->
  price_node container = Some p ->
  prepare_card_data card
  = (x <- PyFloat.float (price_text (get_text p)) ;;
     Return (Some (record_of card container url (VFloat x)))).
Proof.
  intros L I Hc Hp.
  rewrite prepare_card_data_stages, L, I, Hc. cbn [bind].
  unfold read_price. rewrite Hp, price_text_eq.
  destruct (PyFloat.float _); reflexivity.
Qed.

(** C4: on a card that comes to the price step (the link step returned
    and the image passed), the text of the price node goes through
    exactly the preparation of the specification (spaces dropped, commas
    turned into points, the text cut at the currency) and then through
    [float], and the result is the price of the record.  A well-formed
    price, whole part [ds] in groups and decimals [decimals], gives the
    double nearest to the number written [ds.decimals]; "1 200,50 zł"
    gives 1200.50 exactly.  Without a price node the price of the record
    is [None]. *)
Theorem price_is_parsed (card container : Tag) (url : option string) :
  link card = Return url ->
  image_test card = Return false ->
  find card "div" (Some "css-u2ayx9") = Some container ->
  (forall p, price_node container = Some p ->
     prepare_card_data card
     = (x <- PyFloat.float (price_text (get_text p)) ;;
        Return (Some (record_of card container url (VFloat x))))
     /\ (forall whole d ds decimals,
           Forall (fun d => d < 10)%N (d :: ds) ->
           Forall (fun d => d < 10)%N decimals ->
           drop_spaces whole = digits_str (d :: ds) ->
           get_text p = price_string whole decimals ->
           prepare_card_data card
           = Return (Some (record_of card container url
                  (VFloat (PyFloat.nearest false
                             (PyFloat.of_digits ((d :: ds) ++ decimals))
                             (- Z.of_nat (List.length decimals)))))))
     /\ (get_text p = "1 200,50 zł" ->
         exists x q,
           prepare_card_data card
           = Return (Some (record_of card container url (VFloat x)))
           /\ PyFloat.to_Q x = Some q /\ (q == 1200.50)%Q))
  /\ (price_node container = None ->
      prepare_card_data card
      = Return (Some (record_of card container url VNone))).
Proof.
  intros L I Hc. split.
  - intros p Hp.
    pose proof (prepare_card_data_price card container url p L I Hc Hp) as E'.
    split; [exact E'|]. split.
    + intros whole d ds decimals Hds Hdec Hwhole Ht.
      rewrite E', Ht,
        (price_text_price_string whole (d :: ds) decimals Hds Hdec Hwhole).
      rewrite (float_decimal false d ds decimals Hds Hdec). reflexivity.
    + intros Ht. rewrite E', Ht.
      eexists (PyFloat.Finite false 5279854836580352 (-42)), _.
      split; [reflexivity|]. split; [reflexivity|]. vm_compute. reflexivity.
  - intros Hp. rewrite prepare_card_data_stages, L, I, Hc. cbn [bind].
    unfold read_price. rewrite Hp. reflexivity.
Qed.

(** A relative link is put on the base URL, and that does not stop the
    extraction. *)
Lemma relative_link_is_rewritten {accepted : Accepts lib} card a h :
  find card "a" None = Some a ->
  is_url (get a "href") = Return h ->
  not_ h = true ->
  exists u,
    get_url BASE_URL (get a "href") None = Return u
    /\ link card = Return (Some u)
    /\ (forall d, prepare_card_data card = Return (Some d) ->
          getitem d "card_url" = Some (VStr u))
    /\ (forall container price,
          image_test card = Return false ->
          find card "div" (Some "css-u2ayx9") = Some container ->
          read_price container = Return price ->
          prepare_card_data card
          = Return (Some (record_of card container (Some u) price))).
Proof.
  intros Ha Hh Hn.
  destruct (get_url_base_returns (get a "href")) as [u Hu].
  assert (L : link card = Return (Some u)).
  { unfold link. rewrite Ha, Hh. cbn [bind]. rewrite Hn, Hu. reflexivity. }
  exists u. split; [exact Hu|]. split; [exact L|]. split.
  - intros d Hd.
    destruct (prepare_card_data_record card d Hd)
      as [url [c [v [L' [_ [_ [_ E]]]]]]].
    rewrite L in L'. inversion L'. subst url d. reflexivity.
  - intros c v I Hc Hv.
    rewrite prepare_card_data_stages, L, I, Hc. cbn [bind].
    rewrite Hv. reflexivity.
Qed.

(** An image whose address is not absolute drops the card, when the
    link step before it raised nothing; when it raised, so does
    [prepare_card_data]. *)
Lemma image_drops_card card url img h :
  link card = Return url ->
  find card "img" None = Some img ->
  is_url (get img "src") = Return h ->
  not_ h = true ->
  prepare_card_data card = Return None.
Proof.
  intros L Hi Hh Hn.
  rewrite prepare_card_data_stages, L. cbn [bind].
  unfold image_test. rewrite Hi, Hh. cbn [bind]. rewrite Hn. reflexivity.
Qed.

Lemma link_raise_comes_first card e :
  link card = Raise e -> prepare_card_data card = Raise e.
Proof.
  intros L. rewrite prepare_card_data_stages, L. reflexivity.
Qed.

End Library.

(** A card whose image has no [src] is dropped although the name/price
    container is there and no source is "present but not absolute"; and
    a card whose image address has a port that is no number is neither
    dropped nor kept: [ValueError] is raised. *)
Lemma image_rule_counterexamples :
  (prepare_card_data bare_image_card = Return None
   /\ ~ image_unresolvable bare_image_card
   /\ ~ container_missing bare_image_card)
  /\ (prepare_card_data bad_port_card = Raise ValueError
      /\ ~ container_missing bad_port_card).
Proof.
  split; split; try reflexivity.
  - split; [|discriminate].
    intros [img [src [h [Hi [Hs _]]]]].
    vm_compute in Hi. inversion Hi. subst img. discriminate Hs.
  - discriminate.
Qed.

Lemma prepare_card_data_none_iff_witness :
  prepare_card_data no_container_card = Return None
  /\ (exists d, prepare_card_data empty_card = Return (Some d)
                /\ getitem d "price" = Some VNone
                /\ getitem d "name" = Some VNone)
  /\ (exists i, find bad_port_card "img" None = Some i
                /\ is_url (get i "src") = Raise ValueError).
Proof.
  destruct (prepare_card_data_none_iff no_container_card) as [[_ Hnone] _].
  destruct (prepare_card_data_none_iff empty_card)
    as [_ [Hfields [Hkeep _]]].
  destruct (prepare_card_data_none_iff bad_port_card)
    as [_ [_ [_ [_ [_ Hraise]]]]].
  split; [|split].
  - apply Hnone. split; [eexists; reflexivity|].
    right. split; reflexivity.
  - destruct (Hkeep None
                (mkTag "div" [("class", "css-u2ayx9")] [])
                eq_refl eq_refl eq_refl (or_introl eq_refl)) as [d Hd].
    exists d. split; [exact Hd|].
    destruct (Hfields d Hd)
      as [url [c [_ [_ [Hc [_ [_ [_ [_ [Hname [Hprice _]]]]]]]]]]].
    inversion Hc. subst c.
    split; [apply Hprice | apply Hname]; reflexivity.
  - destruct (Hraise ValueError eq_refl)
      as [_ [[a [Ha _]] | [Hi | [c [p [Hc [Hp Hf]]]]]]].
    + vm_compute in Ha. discriminate Ha.
    + exact Hi.
    + vm_compute in Hc. inversion Hc. subst c.
      vm_compute in Hp. inversion Hp. subst p.
      vm_compute in Hf. discriminate Hf.
Defined.

Lemma price_is_parsed_witness :
  prepare_card_data desk_card
  = Return (Some [("card_id", VStr "1");
                  ("card_url", VStr "https://www.olx.pl/d/oferta/desk.html");
                  ("img_url", VStr "https://img.cdn/pic.jpg");
                  ("name", VStr "Desk");
                  ("price", VFloat (PyFloat.nearest false 120050 (-2)));
                  ("currency_unit", VStr "zł");
                  ("state", VStr "Nowe")])
  /\ exists q, PyFloat.to_Q (PyFloat.nearest false 120050 (-2)) = Some q
                /\ (q == 1200.50)%Q.
Proof.
  split; [|eexists; split; [reflexivity | vm_compute; reflexivity]].
  assert (L : link desk_card
              = Return (Some "https://www.olx.pl/d/oferta/desk.html"))
    by reflexivity.
  assert (I : image_test desk_card = Return false) by reflexivity.
  destruct (price_is_parsed desk_card
              (mkTag "div" [("class", "css-u2ayx9")]
                 [Child (mkTag "h6" [("class", "css-16v5mdi er34gjf0")]
                           [NavigableString "Desk"]);
                  Child (mkTag "p" [("class", "css-10b0gli er34gjf0")]
                           [NavigableString "1 200,50 zł"])])
              (Some "https://www.olx.pl/d/oferta/desk.html")
              L I eq_refl) as [Hprice _].
  destruct (Hprice (mkTag "p" [("class", "css-10b0gli er34gjf0")]
                      [NavigableString "1 200,50 zł"]) eq_refl)
    as [_ [Hwell _]].
  exact (Hwell "1 200" 1%N [2; 0; 0]%N [5; 0]%N
           ltac:(repeat constructor) ltac:(repeat constructor)
           eq_refl eq_refl).
Defined.


(** [is_url] is truthy exactly when the library makes a URL object of
    the text and finds a host that is not empty in it, and it raises
    exactly when the library rejects the text. *)
Lemma is_url_truthy_iff {lib : Furl.Library} u :
  (exists h, is_url u = Return h /\ not_ h = false)
  <-> (exists f c s, Furl.load u = Some f
                     /\ Furl.host f = Some (String c s)).
Proof.
  unfold is_url, new_furl. destruct (Furl.load u) as [f|]; cbn [bind].
  - split.
    + intros [h [E Hn]]. inversion E. subst h.
      destruct (Furl.host f) as [[|c s]|] eqn:Hh; try discriminate Hn.
      exists f, c, s. split; reflexivity || assumption.
    + intros [f' [c [s [E Hh]]]]. inversion E. subst f'.
      exists (Some (String c s)). rewrite Hh. split; reflexivity.
  - split.
    + intros [h [E _]]. discriminate E.
    + intros [f [c [s [E _]]]]. discriminate E.
Qed.

Lemma is_url_raises_iff {lib : Furl.Library} u :
  is_url u = Raise ValueError <-> Furl.load u = None.
Proof.
  unfold is_url, new_furl. destruct (Furl.load u) as [f|]; cbn [bind].
  - split; discriminate.
  - split; reflexivity.
Qed.



End CardProps.

(** ** [get_cards] *)
Module RunProps.
Import PyStr TextProps PriceProps ModelProps Soup OlxParser Spec Examples Terms
       CardProps.

Section Site.

Context {tables : PyFloat.Unicode} {lib : Furl.Library} {accepted : Accepts lib}.

Variable goods_count : Z.
Variable requests_get : string -> Response.
Variable BeautifulSoup : string -> Tag.

Abbreviation step := (step goods_count requests_get BeautifulSoup).
Abbreviation get_cards := (get_cards goods_count requests_get BeautifulSoup).
Abbreviation reachable := (reachable goods_count requests_get BeautifulSoup).
Abbreviation invariant := (invariant goods_count requests_get BeautifulSoup).
Abbreviation page_cards := (page_cards requests_get BeautifulSoup).
Abbreviation seen := (seen requests_get BeautifulSoup).

Lemma pages_succ n : (0 <= n)%Z -> pages (n + 1) = (pages n ++ [(n + 1)%Z])%list.
Proof.
  intros Hn. unfold pages.
  replace (Z.to_nat (n + 1)) with (Z.to_nat n + 1)%nat by lia.
  rewrite seq_app, map_app. cbn [seq map]. f_equal. f_equal. lia.
Qed.

Lemma seen_succ n :
  (0 <= n)%Z -> seen (n + 1) = (seen n ++ page_cards (n + 1))%list.
Proof.
  intros Hn. unfold Spec.seen. rewrite (pages_succ n Hn), flat_map_app.
  cbn [flat_map]. rewrite app_nil_r. reflexivity.
Qed.

Lemma records_app a b : records (a ++ b) = (records a ++ records b)%list.
Proof. apply flat_map_app. Qed.

Lemma len_app l (d : dict) : len (l ++ [d]) = (len l + 1)%Z.
Proof. unfold len. rewrite length_app. cbn. lia. Qed.

Lemma invariant_init : invariant init.
Proof.
  constructor; cbn.
  - lia.
  - reflexivity.
  - exists [], []. repeat split. left. reflexivity.
  - intros H. exact H.
  - constructor.
  - split; reflexivity.
Qed.

Lemma invariant_step s : invariant s -> invariant (step s).
Proof.
  intros [Hpage Hreq [done [rest [Hseen [Hdata Hat]]]] Hbound Hrec Hworld].
  unfold OlxParser.step; cbv zeta; rewrite ?get_url_page; cbv beta iota.
  destruct (at_ s) as [|[|card cards]| | |e] eqn:Eat.
  - (* the [while] test *)
    destruct (len (card_data s) <? goods_count)%Z eqn:Elt.
    + apply Z.ltb_lt in Elt.
      assert (Hrest : rest = []) by (destruct Hat as [H|H]; [exact H | lia]).
      subst rest. rewrite app_nil_r in Hseen.
      assert (Hreq' : (requested s ++ [page_url (current_page s + 1)])%list
                      = map page_url (pages (current_page s + 1))).
      { rewrite (pages_succ _ Hpage), map_app, Hreq. reflexivity. }
      assert (Hseen' : (done ++ page_cards (current_page s + 1))%list
                       = seen (current_page s + 1)).
      { rewrite (seen_succ _ Hpage), Hseen. reflexivity. }
      destruct (negb (status_code (requests_get (page_url (current_page s + 1))) =? 200)%Z) eqn:Est.
      * constructor; cbn; try assumption; try lia.
        -- exists done, (page_cards (current_page s + 1)). repeat split; assumption.
        -- destruct Hworld as [Hf Hfi]. repeat split; try assumption.
           ++ eexists. apply last_last.
           ++ left. apply negb_true_iff in Est. apply Z.eqb_neq in Est. exact Est.
      * fold (page_cards (current_page s + 1)).
        destruct (page_cards (current_page s + 1)) as [|c cs] eqn:Ecards.
        -- constructor; cbn; try assumption; try lia.
           ++ exists done, []. rewrite <- Hseen'. repeat split; assumption.
           ++ destruct Hworld as [Hf Hfi]. repeat split; try assumption.
              ** eexists. apply last_last.
              ** right. exact Ecards.
        -- constructor; cbn; try assumption; try lia.
           exists done, (c :: cs). repeat split; assumption.
    + apply Z.ltb_ge in Elt. unfold write_results.
      destruct (card_data s) as [|first ds] eqn:Ecd.
      * constructor; cbn; rewrite ?Ecd; try assumption; try lia.
        -- exists done, rest. repeat split; assumption.
        -- repeat split; try assumption. apply Hworld.
      * constructor; cbn; rewrite ?Ecd; try assumption; try lia.
        -- exists done, rest. repeat split; assumption.
        -- destruct Hworld as [Hf Hfi]. repeat split; try assumption.
           exists first. rewrite Hfi. split; reflexivity.
  - (* the [for] loop is through *)
    constructor; cbn; try assumption.
    exists done, rest. repeat split; try assumption. left. exact Hat.
  - (* one card *)
    destruct (len (card_data s) =? goods_count)%Z eqn:Eeq.
    + apply Z.eqb_eq in Eeq.
      constructor; cbn; try assumption.
      exists done, rest. repeat split; try assumption. right. lia.
    + apply Z.eqb_neq in Eeq. subst rest.
      assert (Hseen' : ((done ++ [card]) ++ cards)%list = seen (current_page s)).
      { rewrite <- app_assoc. exact Hseen. }
      destruct (prepare_card_data card) as [[d|]|e] eqn:Ep.
      * pose proof (prepare_card_data_made _ _ Ep) as Hmade.
        rewrite (made_truthy d Hmade).
        constructor; cbn; try assumption.
        -- exists (done ++ [card])%list, cards. repeat split; try assumption.
           rewrite Hdata, records_app. f_equal.
           unfold records. cbn [flat_map]. rewrite Ep. reflexivity.
        -- intros H0. rewrite len_app. specialize (Hbound H0). lia.
        -- apply Forall_app. split; [assumption|]. constructor; [assumption|constructor].
      * constructor; cbn; try assumption.
        exists (done ++ [card])%list, cards. repeat split; try assumption.
        rewrite Hdata, records_app.
        unfold records at 3. cbn [flat_map]. rewrite Ep, !app_nil_r. reflexivity.
      * pose proof (prepare_card_data_raises _ _ Ep). subst e.
        constructor; cbn; try assumption.
        -- exists done, (card :: cards). repeat split; assumption.
        -- destruct Hworld as [Hf Hfi]. repeat split; try assumption.
           exists card. split; [|assumption].
           rewrite <- Hseen. apply in_or_app. right. left. reflexivity.
  - constructor; rewrite ?Eat; try assumption.
    exists done, rest. repeat split; assumption.
  - constructor; rewrite ?Eat; try assumption.
    exists done, rest. repeat split; assumption.
  - constructor; rewrite ?Eat; try assumption.
    exists done, rest. repeat split; assumption.
Qed.

Lemma reachable_invariant s : reachable s -> invariant s.
Proof.
  induction 1 as [|s _ IH]; [apply invariant_init | apply invariant_step, IH].
Qed.


Lemma get_cards_stopped n s : stopped s = true -> get_cards n s = s.
Proof.
  intros Hs. induction n as [|n IH]; [reflexivity|].
  cbn [OlxParser.get_cards].
  assert (E : step s = s).
  { unfold OlxParser.step. unfold stopped in Hs.
    destruct (at_ s) as [|cs| | |e]; try discriminate; reflexivity. }
  rewrite E. exact IH.
Qed.

Lemma get_cards_add a b s :
  get_cards (a + b) s = get_cards b (get_cards a s).
Proof.
  revert s. induction a as [|a IH]; intros s; [reflexivity|].
  cbn [Nat.add OlxParser.get_cards]. apply IH.
Qed.

Lemma reachable_get_cards n s : reachable s -> reachable (get_cards n s).
Proof.
  revert s. induction n as [|n IH]; intros s Hs; [exact Hs|].
  cbn [OlxParser.get_cards]. apply IH. constructor. exact Hs.
Qed.

(** *** The steps of the loop, one lemma per branch *)

Lemma step_fetch s c cs :
  at_ s = AtWhile ->
  (len (card_data s) < goods_count)%Z ->
  status_code (requests_get (page_url (current_page s + 1))) = 200%Z ->
  page_cards (current_page s + 1) = c :: cs ->
  at_ (step s) = AtFor (c :: cs)
  /\ card_data (step s) = card_data s
  /\ current_page (step s) = (current_page s + 1)%Z.
Proof.
  intros Hat Hlt Hst Hcs. unfold OlxParser.step; cbv zeta; rewrite ?get_url_page; cbv beta iota. rewrite Hat.
  apply Z.ltb_lt in Hlt. rewrite Hlt, Hst. cbn [Z.eqb Pos.eqb negb].
  fold (page_cards (current_page s + 1)). rewrite Hcs.
  repeat split.
Qed.

Lemma step_abort s :
  at_ s = AtWhile ->
  (len (card_data s) < goods_count)%Z ->
  status_code (requests_get (page_url (current_page s + 1))) <> 200%Z
  \/ page_cards (current_page s + 1) = [] ->
  at_ (step s) = Aborted
  /\ card_data (step s) = card_data s
  /\ files (step s) = files s
  /\ results_folder (step s) = results_folder s
  /\ exists msg, log (step s) = (log s ++ [(ERROR, msg)])%list.
Proof.
  intros Hat Hlt Hbad. unfold OlxParser.step; cbv zeta; rewrite ?get_url_page; cbv beta iota. rewrite Hat.
  apply Z.ltb_lt in Hlt. rewrite Hlt.
  destruct (negb (status_code (requests_get (page_url (current_page s + 1)))
                  =? 200)%Z) eqn:Est.
  - repeat split. eexists. reflexivity.
  - fold (page_cards (current_page s + 1)).
    destruct Hbad as [Hst | Hcs].
    + apply negb_false_iff, Z.eqb_eq in Est. contradiction.
    + rewrite Hcs. repeat split. eexists. reflexivity.
Qed.

Lemma step_write s :
  at_ s = AtWhile ->
  (goods_count <= len (card_data s))%Z ->
  step s = write_results s.
Proof.
  intros Hat Hge. unfold OlxParser.step. rewrite Hat.
  apply Z.ltb_ge in Hge. rewrite Hge. reflexivity.
Qed.

Lemma step_append s card cards d :
  at_ s = AtFor (card :: cards) ->
  len (card_data s) <> goods_count ->
  prepare_card_data card = Return (Some d) ->
  at_ (step s) = AtFor cards
  /\ card_data (step s) = (card_data s ++ [d])%list
  /\ current_page (step s) = current_page s
  /\ log (step s)
     = (log s ++ check_data d
        ++ [(INFO, ("Amount collected data: "
                    ++ str_int (len (card_data s ++ [d])%list)
                    ++ ", page: " ++ str_int (current_page s))%string)])%list.
Proof.
  intros Hat Hne Hd. unfold OlxParser.step. rewrite Hat.
  apply Z.eqb_neq in Hne. rewrite Hne, Hd.
  rewrite (made_truthy d (prepare_card_data_made _ _ Hd)).
  repeat split.
Qed.

Lemma step_raise s card cards e :
  at_ s = AtFor (card :: cards) ->
  len (card_data s) <> goods_count ->
  prepare_card_data card = Raise e ->
  at_ (step s) = Crashed e
  /\ card_data (step s) = card_data s
  /\ log (step s) = log s
  /\ files (step s) = files s.
Proof.
  intros Hat Hne He. unfold OlxParser.step. rewrite Hat.
  apply Z.eqb_neq in Hne. rewrite Hne, He. repeat split.
Qed.

Lemma step_break s card cards :
  at_ s = AtFor (card :: cards) ->
  len (card_data s) = goods_count ->
  at_ (step s) = AtWhile
  /\ card_data (step s) = card_data s
  /\ current_page (step s) = current_page s.
Proof.
  intros Hat Heq. unfold OlxParser.step. rewrite Hat.
  apply Z.eqb_eq in Heq. rewrite Heq. repeat split.
Qed.

Lemma step_for_end s :
  at_ s = AtFor [] ->
  at_ (step s) = AtWhile
  /\ card_data (step s) = card_data s
  /\ current_page (step s) = current_page s.
Proof.
  intros Hat. unfold OlxParser.step. rewrite Hat. repeat split.
Qed.

(** A step leaves the records collected so far where they are. *)
Lemma step_grows s :
  exists new, card_data (step s) = (card_data s ++ new)%list.
Proof.
  unfold OlxParser.step, write_results.
  destruct (at_ s) as [|[|card cards]| | |e].
  - destruct (len (card_data s) <? goods_count)%Z.
    + cbv zeta.
      destruct (get_url OFERTY_URL None (page_params (current_page s + 1)))
        as [url|e];
        [destruct (negb _); [|destruct (findAll _ _ _)]|];
        exists []; cbn [card_data]; rewrite app_nil_r; reflexivity.
    + destruct (card_data s) eqn:E; exists []; cbn [card_data];
        rewrite ?E, app_nil_r; reflexivity.
  - exists []. cbn [card_data]. rewrite app_nil_r. reflexivity.
  - destruct (len (card_data s) =? goods_count)%Z.
    + exists []. cbn [card_data]. rewrite app_nil_r. reflexivity.
    + destruct (prepare_card_data card) as [[d|]|e].
      * destruct (dict_truthy d); [exists [d] | exists []];
          cbn [card_data]; rewrite ?app_nil_r; reflexivity.
      * exists []. cbn [card_data]. rewrite app_nil_r. reflexivity.
      * exists []. cbn [card_data]. rewrite app_nil_r. reflexivity.
  - exists []. rewrite app_nil_r. reflexivity.
  - exists []. rewrite app_nil_r. reflexivity.
  - exists []. rewrite app_nil_r. reflexivity.
Qed.


(** C2: with a target that is not negative, no state of a run holds more
    records than the target.  With target 3, a first page of two cards
    that give records and a second page whose first card gives a record,
    eight steps end the run: the records are those of the two cards of
    page 1 and of the first card of page 2, in this order, and they are
    what is written; the second card of page 2 is not looked at. *)
Theorem card_data_within_target :
  (0 <= goods_count)%Z ->
  (forall s, reachable s -> (len (card_data s) <= goods_count)%Z)
  /\ (goods_count = 3%Z ->
      forall a b c d ra rb rc,
        status_code (requests_get (page_url 1)) = 200%Z ->
        page_cards 1 = [a; b] ->
        status_code (requests_get (page_url 2)) = 200%Z ->
        page_cards 2 = [c; d] ->
        prepare_card_data a = Return (Some ra) ->
        prepare_card_data b = Return (Some rb) ->
        prepare_card_data c = Return (Some rc) ->
        forall n, (8 <= n)%nat ->
          at_ (get_cards n init) = Finished
          /\ card_data (get_cards n init) = [ra; rb; rc]
          /\ files (get_cards n init)
             = [{| fieldnames := keys ra; rows := [ra; rb; rc] |}]).
Proof.
  intros Hgc. split.
  - intros s Hs. apply (inv_bound _ _ _ _ (reachable_invariant s Hs)), Hgc.
  - intros Hthree a b c d ra rb rc S1 P1 S2 P2 Ra Rb Rc n Hn.
    destruct (step_fetch init a [b] eq_refl) as [A1 [D1 C1]];
      [cbn; lia | exact S1 | exact P1 |].
    cbn [card_data current_page init Z.add] in D1, C1.
    destruct (step_append (step init) a [b] ra A1) as [A2 [D2 [C2 _]]];
      [rewrite D1; cbn; lia | exact Ra |].
    rewrite D1 in D2. rewrite C1 in C2. cbn [app] in D2.
    destruct (step_append (step (step init)) b [] rb A2) as [A3 [D3 [C3 _]]];
      [rewrite D2; cbn; lia | exact Rb |].
    rewrite D2 in D3. rewrite C2 in C3. cbn [app] in D3.
    destruct (step_for_end (step (step (step init))) A3) as [A4 [D4 C4]].
    rewrite D3 in D4. rewrite C3 in C4.
    destruct (step_fetch (step (step (step (step init)))) c [d] A4)
      as [A5 [D5 C5]];
      [rewrite D4; cbn; lia | rewrite C4; exact S2 | rewrite C4; exact P2 |].
    rewrite D4 in D5. rewrite C4 in C5.
    destruct (step_append (step (step (step (step (step init))))) c [d] rc A5)
      as [A6 [D6 [C6 _]]];
      [rewrite D5; cbn; lia | exact Rc |].
    rewrite D5 in D6. cbn [app] in D6.
    destruct (step_break (step (step (step (step (step (step init)))))) d [] A6)
      as [A7 [D7 _]];
      [rewrite D6; cbn; lia |].
    rewrite D6 in D7.
    set (s7 := step (step (step (step (step (step (step init))))))) in *.
    assert (E8 : get_cards 8 init = write_results s7).
    { cbn [OlxParser.get_cards]. fold s7. apply step_write; [exact A7|].
      rewrite D7. cbn. lia. }
    assert (Hn' : n = (8 + (n - 8))%nat) by lia.
    rewrite Hn', get_cards_add, E8.
    assert (Hw : at_ (write_results s7) = Finished
                 /\ card_data (write_results s7) = [ra; rb; rc]).
    { unfold write_results. rewrite D7. split; reflexivity. }
    destruct Hw as [Hf Hd].
    rewrite get_cards_stopped by (unfold stopped; rewrite Hf; reflexivity).
    split; [exact Hf|]. split; [exact Hd|].
    assert (Hr : reachable (write_results s7)).
    { rewrite <- E8. apply reachable_get_cards. constructor. }
    pose proof (inv_world _ _ _ _ (reachable_invariant _ Hr)) as Hworld.
    rewrite Hf in Hworld. destruct Hworld as [_ [_ [first [Hfirst Hfiles]]]].
    rewrite Hd in Hfirst, Hfiles. inversion Hfirst. subst first.
    exact Hfiles.
Qed.

(** C6: when the status is not OK, or the page holds no card node, the
    step from the [while] test ends the run in [Aborted], with the
    records and the files as they were, and the run stays there.  No
    aborted state has a file or has entered [write_results];
    [write_results] is entered only with the target met, from the
    [while] test, and a file exists only in [Finished]. *)
Theorem aborted_run_writes_nothing (s : state) :
  reachable s ->
  (at_ s = AtWhile ->
   (len (card_data s) < goods_count)%Z ->
   status_code (requests_get (page_url (current_page s + 1))) <> 200%Z
   \/ page_cards (current_page s + 1) = [] ->
   at_ (step s) = Aborted
   /\ card_data (step s) = card_data s
   /\ files (step s) = []
   /\ results_folder (step s) = false
   /\ forall n, get_cards n (step s) = step s)
  /\ (at_ s = Aborted -> files s = [] /\ results_folder s = false)
  /\ (results_folder s = true ->
      (goods_count <= len (card_data s))%Z
      /\ (at_ s = Finished \/ at_ s = Crashed IndexError))
  /\ (files s <> [] ->
      at_ s = Finished
      /\ (goods_count <= len (card_data s))%Z
      /\ forall f, In f (files s) -> rows f = card_data s).
Proof.
  intros Hs. pose proof (reachable_invariant s Hs) as Hinv.
  pose proof (inv_world _ _ _ _ Hinv) as Hworld.
  split; [|split; [|split]].
  - intros Hat Hlt Hbad.
    destruct (step_abort s Hat Hlt Hbad) as [Ha [Hd [Hf [Hr _]]]].
    rewrite Hat in Hworld. destruct Hworld as [Hfolder Hfiles].
    repeat split; try congruence.
    intros n. apply get_cards_stopped. unfold stopped. rewrite Ha. reflexivity.
  - intros Hat. rewrite Hat in Hworld.
    destruct Hworld as [Hfolder [Hfiles _]]. split; assumption.
  - intros Hfolder.
    destruct (at_ s) as [|cs| | |[|]]; try (destruct Hworld; congruence).
    + split; [apply Hworld | left; reflexivity].
    + split; [apply Hworld | right; reflexivity].
  - intros Hfiles.
    destruct (at_ s) as [|cs| | |[|]];
      try (exfalso; apply Hfiles; apply Hworld).
    destruct Hworld as [Hge [_ [first [_ Hf]]]].
    split; [reflexivity|]. split; [exact Hge|].
    intros f Hin. rewrite Hf in Hin. destruct Hin as [Hin|[]].
    subst f. reflexivity.
Qed.

(** C7 (as amended): a run that has stopped has either aborted, with an
    error logged last, because of a status that is not OK or a page
    without cards; or it was left by the [ValueError] that
    [prepare_card_data] raised on a card of the page (a price that
    [float] cannot read, an address that the URL library rejects); or
    by the [IndexError] of [write_results] on an
    empty result set, the target being at most 0; or it has finished and
    written its records.  Only in the last case is there a file.  The
    two exceptions are raised without anything being logged. *)
Theorem run_ends (s : state) :
  reachable s ->
  (stopped s = true ->
   (at_ s = Aborted
    /\ (exists msg, last (log s) (INFO, "") = (ERROR, msg))
    /\ (status_code (requests_get (page_url (current_page s))) <> 200%Z
        \/ page_cards (current_page s) = [])
    /\ files s = [])
   \/ (at_ s = Crashed ValueError
       /\ (exists card, In card (seen (current_page s))
                        /\ prepare_card_data card = Raise ValueError)
       /\ files s = [])
   \/ (at_ s = Crashed IndexError
       /\ card_data s = [] /\ (goods_count <= 0)%Z /\ files s = [])
   \/ (at_ s = Finished
       /\ (goods_count <= len (card_data s))%Z
       /\ exists first,
            hd_error (card_data s) = Some first
            /\ files s = [{| fieldnames := keys first;
                             rows := card_data s |}]))
  /\ (forall card cards e,
        at_ s = AtFor (card :: cards) ->
        len (card_data s) <> goods_count ->
        prepare_card_data card = Raise e ->
        at_ (step s) = Crashed e /\ log (step s) = log s
        /\ files (step s) = [])
  /\ (at_ s = AtWhile ->
      (goods_count <= len (card_data s))%Z ->
      card_data s = [] ->
      at_ (step s) = Crashed IndexError /\ log (step s) = log s
      /\ files (step s) = []).
Proof.
  intros Hs. pose proof (reachable_invariant s Hs) as Hinv.
  pose proof (inv_world _ _ _ _ Hinv) as Hworld.
  split; [|split].
  - unfold stopped. intros Hst.
    destruct (at_ s) as [|cs| | |[|]]; try discriminate.
    + right. right. right. split; [reflexivity|].
      destruct Hworld as [Hge [_ Hf]]. split; assumption.
    + left. destruct Hworld as [_ [Hf [Hlog Hwhy]]]. repeat split; assumption.
    + right. left. destruct Hworld as [_ [Hf Hcard]]. repeat split; assumption.
    + right. right. left. destruct Hworld as [Hge [Hd [_ Hf]]].
      rewrite Hd in Hge. cbn in Hge. repeat split; assumption.
  - intros card cards e Hat Hne He.
    destruct (step_raise s card cards e Hat Hne He) as [Ha [_ [Hl Hf]]].
    rewrite Hat in Hworld. destruct Hworld as [_ Hfiles].
    repeat split; congruence.
  - intros Hat Hge Hd. rewrite (step_write s Hat Hge).
    rewrite Hat in Hworld. destruct Hworld as [_ Hfiles].
    unfold write_results. rewrite Hd. repeat split. exact Hfiles.
Qed.

(** C9: the records of a state are those of a first part of the cards of
    the pages fetched so far, page after page and in document order
    within a page; a step leaves them in place and at most puts one
    after them. *)
Theorem card_data_in_encounter_order (s : state) :
  reachable s ->
  (exists done rest,
      (done ++ rest)%list = flat_map page_cards (pages (current_page s))
      /\ card_data s = records done)
  /\ (exists new, card_data (step s) = (card_data s ++ new)%list
                  /\ (List.length new <= 1)%nat).
Proof.
  intros Hs. pose proof (reachable_invariant s Hs) as Hinv.
  split.
  - destruct (inv_order _ _ _ _ Hinv) as [done [rest [Hseen [Hdata _]]]].
    exists done, rest. split; assumption.
  - unfold OlxParser.step, write_results; cbv zeta; rewrite ?get_url_page;
    cbv beta iota.
    destruct (at_ s) as [|[|card cards]| | |e].
    + destruct (len (card_data s) <? goods_count)%Z.
      * destruct (negb _); [|destruct (findAll _ _ _)];
          exists []; cbn [card_data]; rewrite app_nil_r; split;
          (reflexivity || (cbn; lia)).
      * destruct (card_data s) eqn:E; exists []; cbn [card_data];
          rewrite ?E, app_nil_r; split; (reflexivity || (cbn; lia)).
    + exists []. cbn [card_data]. rewrite app_nil_r.
      split; [reflexivity | cbn; lia].
    + destruct (len (card_data s) =? goods_count)%Z.
      * exists []. cbn [card_data]. rewrite app_nil_r.
        split; [reflexivity | cbn; lia].
      * destruct (prepare_card_data card) as [[d|]|e].
        -- destruct (dict_truthy d); [exists [d] | exists []];
             cbn [card_data]; rewrite ?app_nil_r;
             (split; [reflexivity | cbn; lia]).
        -- exists []. cbn [card_data]. rewrite app_nil_r.
           split; [reflexivity | cbn; lia].
        -- exists []. cbn [card_data]. rewrite app_nil_r.
           split; [reflexivity | cbn; lia].
    + exists []. rewrite app_nil_r. split; [reflexivity | cbn; lia].
    + exists []. rewrite app_nil_r. split; [reflexivity | cbn; lia].
    + exists []. rewrite app_nil_r. split; [reflexivity | cbn; lia].
Qed.

(** C10: every record of a state of a run is a dictionary returned by
    [prepare_card_data], with the seven keys and "zł" as currency unit.
    Where [prepare_card_data] returns a record and the target is not
    met, the step puts exactly this record at the end of the result
    set; [check_data] adds at most a warning to the log. *)
Theorem appended_records_are_whole (s : state) :
  reachable s ->
  Forall (fun d =>
            keys d = ["card_id"; "card_url"; "img_url"; "name"; "price";
                      "currency_unit"; "state"]
            /\ getitem d "currency_unit" = Some (VStr "zł")
            /\ exists card, prepare_card_data card = Return (Some d))
         (card_data s)
  /\ (forall card cards d,
        at_ s = AtFor (card :: cards) ->
        len (card_data s) <> goods_count ->
        prepare_card_data card = Return (Some d) ->
        card_data (step s) = (card_data s ++ [d])%list
        /\ (check_data d = []
            \/ check_data d = [(WARNING, "Not all data received")])
        /\ exists info,
             log (step s) = (log s ++ check_data d ++ [(INFO, info)])%list).
Proof.
  intros Hs. split.
  - exact (inv_records _ _ _ _ (reachable_invariant s Hs)).
  - intros card cards d Hat Hne Hd.
    destruct (step_append s card cards d Hat Hne Hd) as [_ [Hcd [_ Hlog]]].
    split; [exact Hcd|]. split.
    + unfold check_data. destruct (negb _); [right | left]; reflexivity.
    + eexists. exact Hlog.
Qed.

End Site.

Lemma card_data_within_target_witness :
  (len (card_data (get_cards 3 two_pages two_pages_parser 6 init)) <= 3)%Z
  /\ at_ (get_cards 3 two_pages two_pages_parser 8 init) = Finished
  /\ map (fun d => getitem d "card_id")
         (card_data (get_cards 3 two_pages two_pages_parser 8 init))
     = [Some (VStr "1"); Some (VStr "2"); Some (VStr "3")].
Proof.
  assert (Hgc : (0 <= 3)%Z) by lia.
  destruct (card_data_within_target 3 two_pages two_pages_parser Hgc)
    as [Hbound Hrun].
  split.
  - apply Hbound. apply reachable_get_cards. constructor.
  - destruct (Hrun eq_refl desk_card lamp_card chair_card shelf_card
                _ _ _ eq_refl eq_refl eq_refl eq_refl eq_refl eq_refl eq_refl
                8%nat (le_n 8)) as [Hat [Hdata _]].
    split; [exact Hat|]. rewrite Hdata. reflexivity.
Defined.

Lemma aborted_run_writes_nothing_witness :
  at_ (step 3 site_down two_pages_parser init) = Aborted
  /\ card_data (step 3 site_down two_pages_parser init) = []
  /\ files (step 3 site_down two_pages_parser init) = []
  /\ at_ (step 3 blank_site two_pages_parser init) = Aborted.
Proof.
  destruct (aborted_run_writes_nothing 3 site_down two_pages_parser init
              (reach_init _ _ _)) as [Hdown _].
  destruct (Hdown eq_refl ltac:(cbn; lia) ltac:(left; discriminate))
    as [Hat [Hdata [Hfiles _]]].
  destruct (aborted_run_writes_nothing 3 blank_site two_pages_parser init
              (reach_init _ _ _)) as [Hblank _].
  destruct (Hblank eq_refl ltac:(cbn; lia) ltac:(right; reflexivity))
    as [Hat' _].
  repeat split; assumption.
Defined.

(** A run with target 0 is left by [IndexError] and one that meets an
    unreadable price by [ValueError]; neither logs an error. *)
Lemma exceptions_leave_get_cards :
  at_ (get_cards 0 two_pages two_pages_parser 1 init) = Crashed IndexError
  /\ log (get_cards 0 two_pages two_pages_parser 1 init) = []
  /\ at_ (get_cards 3 swap_site swap_parser 3 init) = Crashed ValueError
  /\ filter (fun r => match fst r with ERROR => true | _ => false end)
            (log (get_cards 3 swap_site swap_parser 3 init)) = [].
Proof. repeat split. Qed.

Lemma run_ends_witness :
  at_ (get_cards 3 swap_site swap_parser 3 init) = Crashed ValueError
  /\ files (get_cards 3 swap_site swap_parser 3 init) = []
  /\ at_ (step 0 two_pages two_pages_parser init) = Crashed IndexError.
Proof.
  destruct (run_ends 3 swap_site swap_parser
              (get_cards 3 swap_site swap_parser 3 init)
              (reachable_get_cards _ _ _ 3 _ (reach_init _ _ _)))
    as [Hstop _].
  destruct (run_ends 0 two_pages two_pages_parser init (reach_init _ _ _))
    as [_ [_ Hempty]].
  destruct (Hempty eq_refl ltac:(cbn; lia) eq_refl) as [Hindex _].
  assert (Hst : stopped (get_cards 3 swap_site swap_parser 3 init) = true)
    by (vm_compute; reflexivity).
  destruct (Hstop Hst)
    as [[Hat _] | [[Hat [_ Hf]] | [[Hat _] | [Hat _]]]];
    try (vm_compute in Hat; discriminate Hat).
  repeat split; assumption.
Defined.

Lemma card_data_in_encounter_order_witness :
  exists done rest,
    (done ++ rest)%list
    = flat_map (page_cards two_pages two_pages_parser) (pages 2)
    /\ card_data (get_cards 3 two_pages two_pages_parser 8 init)
       = records done.
Proof.
  destruct (card_data_in_encounter_order 3 two_pages two_pages_parser
              (get_cards 3 two_pages two_pages_parser 8 init)
              (reachable_get_cards _ _ _ 8 _ (reach_init _ _ _)))
    as [Horder _].
  exact Horder.
Defined.

Lemma appended_records_are_whole_witness :
  card_data (step 3 two_pages two_pages_parser
               (step 3 two_pages two_pages_parser init))
  = [[("card_id", VStr "1");
      ("card_url", VStr "https://www.olx.pl/d/oferta/desk.html");
      ("img_url", VStr "https://img.cdn/pic.jpg");
      ("name", VStr "Desk");
      ("price", VFloat (PyFloat.nearest false 120050 (-2)));
      ("currency_unit", VStr "zł");
      ("state", VStr "Nowe")]].
Proof.
  destruct (appended_records_are_whole 3 two_pages two_pages_parser
              (step 3 two_pages two_pages_parser init)
              (reach_step _ _ _ _ (reach_init _ _ _))) as [_ Happend].
  assert (Hne : len (card_data (step 3 two_pages two_pages_parser init))
                <> 3%Z) by (vm_compute; discriminate).
  destruct (Happend desk_card [lamp_card] _ eq_refl Hne eq_refl)
    as [Hdata _].
  exact Hdata.
Defined.




End RunProps.

(** ** More on [get_cards] and [handle] *)
Module RunMore.
Import PyStr TextProps PriceProps ModelProps Soup OlxParser Spec Examples Terms
       CardProps RunProps Handle.

Lemma str_int_inj a b : str_int a = str_int b -> a = b.
Proof.
  unfold str_int. intros H.
  assert (Hn : forall z, Z.to_int z <> Decimal.Pos Decimal.Nil
                         /\ Z.to_int z <> Decimal.Neg Decimal.Nil).
  { intros [|p|p]; cbn; split; try discriminate;
      intros E; inversion E as [E'];
      exact (DecimalPos.Unsigned.to_uint_nonnil p E'). }
  apply DecimalZ.to_int_inj.
  destruct (Hn a) as [Ha1 Ha2]. destruct (Hn b) as [Hb1 Hb2].
  pose proof (NilZero.isi _ Ha1 Ha2) as Ia.
  pose proof (NilZero.isi _ Hb1 Hb2) as Ib.
  rewrite H in Ia. rewrite Ia in Ib. inversion Ib. reflexivity.
Qed.

Lemma append_inj (a x y : string) : a ++ x = a ++ y -> x = y.
Proof.
  induction a as [|c a IH]; cbn [append]; intros H; [exact H|].
  inversion H. apply IH. assumption.
Qed.

(** With the model of the library, different pages have different
    URLs. *)
Lemma page_url_inj a b :
  (1 <= a)%Z -> (1 <= b)%Z ->
  page_url (lib := FurlModel.model) a = page_url (lib := FurlModel.model) b ->
  a = b.
Proof.
  intros Ha Hb H. rewrite !page_url_model in H. apply append_inj in H.
  destruct (1 <? a)%Z eqn:Ea; destruct (1 <? b)%Z eqn:Eb;
    try discriminate H.
  - apply append_inj in H. apply str_int_inj. exact H.
  - apply Z.ltb_ge in Ea, Eb. lia.
Qed.

Lemma pages_range n x : In x (pages n) -> (1 <= x <= n)%Z.
Proof.
  unfold pages. intros H. apply in_map_iff in H.
  destruct H as [k [Hk Hin]]. apply in_seq in Hin. lia.
Qed.

Lemma pages_nodup n : NoDup (pages n).
Proof.
  unfold pages. apply NoDup_map_NoDup_ForallPairs; [|apply seq_NoDup].
  intros x y _ _ H. lia.
Qed.

Section Site.

Context {tables : PyFloat.Unicode} {lib : Furl.Library} {accepted : Accepts lib}.

Variable goods_count : Z.
Variable requests_get : string -> Response.
Variable BeautifulSoup : string -> Tag.

Abbreviation step := (step goods_count requests_get BeautifulSoup).
Abbreviation get_cards := (get_cards goods_count requests_get BeautifulSoup).
Abbreviation reachable := (reachable goods_count requests_get BeautifulSoup).
Abbreviation page_cards := (page_cards requests_get BeautifulSoup).

Lemma check_data_levels d :
  filter is_error (check_data d) = []
  /\ filter is_info (check_data d) = []
  /\ List.length (filter is_warning (check_data d))
     = if incomplete d then 1%nat else 0%nat.
Proof.
  unfold check_data, incomplete. destruct (negb _); repeat split.
Qed.

Lemma ledger_init : ledger goods_count init.
Proof. constructor; cbn; try reflexivity; try exact I. lia. Qed.

Lemma ledger_step s : ledger goods_count s -> ledger goods_count (step s).
Proof.
  intros [Herr Hwarn Hinfo Hfor Hmax].
  unfold OlxParser.step, write_results; cbv zeta.
  destruct (at_ s) as [|[|card cards]| | |e] eqn:Eat.
  - destruct (len (card_data s) <? goods_count)%Z eqn:Elt.
    + apply Z.ltb_lt in Elt.
      destruct (get_url OFERTY_URL None (page_params (current_page s + 1)))
        as [url|e].
      2:{ constructor; cbn [log card_data at_]; try assumption; exact I. }
      destruct (negb _).
      * constructor; cbn [log card_data at_]; rewrite ?filter_app, ?length_app;
          cbn; try lia; exact I.
      * destruct (findAll _ _ _).
        -- constructor; cbn [log card_data at_];
             rewrite ?filter_app, ?length_app; cbn; try lia; exact I.
        -- constructor; cbn [log card_data at_]; try assumption; lia.
    + destruct (card_data s) as [|first ds] eqn:Ecd.
      * constructor; cbn [log card_data at_]; rewrite ?Ecd in *;
          try assumption; try exact I.
      * set (W := filter incomplete (first :: ds)) in *.
        set (n := List.length (first :: ds)) in *.
        constructor; cbn [log card_data at_]; fold W; fold n;
          try assumption; try exact I; clearbody W n;
          rewrite ?filter_app, ?length_app;
          cbn [filter is_error is_warning is_info fst List.length]; lia.
  - constructor; cbn [log card_data at_]; try assumption; exact I.
  - destruct (len (card_data s) =? goods_count)%Z eqn:Eeq.
    + constructor; cbn [log card_data at_]; try assumption; exact I.
    + apply Z.eqb_neq in Eeq.
      destruct (prepare_card_data card) as [[d|]|e].
      * destruct (dict_truthy d).
        -- destruct (check_data_levels d) as [Ce [Ci Cw]].
           constructor; cbn [log card_data at_];
             rewrite ?filter_app, ?length_app, ?Ce, ?Ci, ?Cw; cbn [List.length filter is_error is_warning is_info fst].
           ++ lia.
           ++ cbn [filter]. destruct (incomplete d); cbn; lia.
           ++ lia.
           ++ rewrite len_app. lia.
           ++ rewrite len_app. lia.
        -- constructor; cbn [log card_data at_]; try assumption.
      * constructor; cbn [log card_data at_]; try assumption.
      * constructor; cbn [log card_data at_]; try assumption; exact I.
  - constructor; rewrite ?Eat; assumption.
  - constructor; rewrite ?Eat; assumption.
  - constructor; rewrite ?Eat; assumption.
Qed.

Lemma reachable_ledger s : reachable s -> ledger goods_count s.
Proof.
  induction 1 as [|s _ IH]; [apply ledger_init | apply ledger_step, IH].
Qed.

(** X2: the log tells how the run went.  It holds one error when the
    run has aborted and none otherwise, one warning for every record
    with a falsy value, and one information line for every record, and
    one more when the file has been written. *)
Theorem log_matches_run (s : state) :
  reachable s ->
  List.length (filter is_error (log s))
  = match at_ s with Aborted => 1%nat | _ => 0%nat end
  /\ List.length (filter is_warning (log s))
     = List.length (filter incomplete (card_data s))
  /\ List.length (filter is_info (log s))
     = (List.length (card_data s)
        + match at_ s with Finished => 1 | _ => 0 end)%nat.
Proof.
  intros Hs. destruct (reachable_ledger s Hs) as [He Hw Hi _ _].
  repeat split; assumption.
Qed.

(** X3: a run that has finished has written one file.  Its header is
    the seven keys, its rows are the result set, every row has exactly
    the keys of the header, and there are exactly [goods_count] rows. *)
Theorem finished_run_file (s : state) :
  reachable s ->
  at_ s = Finished ->
  exists f,
    files s = [f]
    /\ fieldnames f = record_keys
    /\ rows f = card_data s
    /\ Forall (fun row => keys row = fieldnames f) (rows f)
    /\ len (rows f) = goods_count
    /\ (1 <= goods_count)%Z.
Proof.
  intros Hs Hat.
  pose proof (reachable_invariant _ _ _ s Hs) as Hinv.
  pose proof (inv_world _ _ _ _ Hinv) as Hworld.
  pose proof (inv_records _ _ _ _ Hinv) as Hrec.
  pose proof (led_max _ _ (reachable_ledger s Hs)) as Hmax.
  rewrite Hat in Hworld.
  destruct Hworld as [Hge [_ [first [Hfirst Hfiles]]]].
  assert (Hkeys : Forall (fun row => keys row = record_keys) (card_data s)).
  { revert Hrec. apply Forall_impl. intros d [Hk _]. exact Hk. }
  assert (Hpos : (1 <= len (card_data s))%Z).
  { destruct (card_data s); [discriminate Hfirst|]. unfold len. cbn. lia. }
  assert (Hfk : keys first = record_keys).
  { destruct (card_data s) as [|d ds]; [discriminate Hfirst|].
    inversion Hfirst. subst d. inversion Hkeys. assumption. }
  eexists. split; [exact Hfiles|]. cbn [fieldnames rows].
  rewrite Hfk. repeat split; try assumption; lia.
Qed.

(** X4: with a target of 0 or less no request is made: the first step
    goes into [write_results], which makes the results folder and then
    raises [IndexError] on the empty result set; nothing is logged and
    no file is written, whatever the fuel. *)
Theorem nonpositive_target_raises (n : nat) :
  (goods_count <= 0)%Z ->
  get_cards (S n) init
  = {| card_data := []; current_page := 0; at_ := Crashed IndexError;
       log := []; requested := []; results_folder := true; files := [] |}.
Proof.
  intros Hgc.
  assert (E : step init
              = {| card_data := []; current_page := 0;
                   at_ := Crashed IndexError; log := []; requested := [];
                   results_folder := true; files := [] |}).
  { rewrite step_write; [reflexivity | reflexivity | cbn; lia]. }
  cbn [OlxParser.get_cards]. rewrite E.
  apply get_cards_stopped. reflexivity.
Qed.

Lemma step_skip s card cards :
  at_ s = AtFor (card :: cards) ->
  len (card_data s) <> goods_count ->
  prepare_card_data card = Return None ->
  at_ (step s) = AtFor cards
  /\ card_data (step s) = card_data s
  /\ current_page (step s) = current_page s.
Proof.
  intros Hat Hne Hd. unfold OlxParser.step. rewrite Hat.
  apply Z.eqb_neq in Hne. rewrite Hne, Hd. repeat split.
Qed.

Lemma get_cards_S n s : get_cards (S n) s = get_cards n (step s).
Proof. reflexivity. Qed.

(** The [for] loop over cards that raise nothing comes back to the
    [while] test, with as many records more as the cards give, up to the
    target. *)
Lemma for_loop_returns cards :
  Forall (fun c => usable c \/ skipped c) cards ->
  forall s,
    at_ s = AtFor cards ->
    (len (card_data s) <= goods_count)%Z ->
    exists k,
      at_ (get_cards k s) = AtWhile
      /\ current_page (get_cards k s) = current_page s
      /\ len (card_data (get_cards k s))
         = Z.min goods_count
             (len (card_data s) + len (records cards)).
Proof.
  induction 1 as [|card cards Hcard _ IH]; intros s Hat Hle.
  - exists 1%nat. rewrite get_cards_S. cbn [OlxParser.get_cards].
    destruct (step_for_end goods_count requests_get BeautifulSoup s Hat) as [A [D C]].
    rewrite A, D, C. repeat split. unfold records, len in *. cbn. lia.
  - destruct (Z.eq_dec (len (card_data s)) goods_count) as [Heq|Hne].
    + exists 1%nat. rewrite get_cards_S. cbn [OlxParser.get_cards].
      destruct (step_break goods_count requests_get BeautifulSoup s card cards Hat Heq) as [A [D C]].
      rewrite A, D, C. repeat split. unfold len in *. lia.
    + destruct Hcard as [[d Hd] | Hd].
      * destruct (step_append goods_count requests_get BeautifulSoup s card cards d Hat Hne Hd)
          as [A [D [C _]]].
        destruct (IH (step s) A) as [k [A' [C' L']]].
        { rewrite D, len_app. lia. }
        exists (S k). rewrite get_cards_S, A', C', L', C, D, len_app.
        repeat split.
        unfold records. cbn [flat_map]. rewrite Hd.
        fold (records cards). unfold len. cbn [app List.length]. lia.
      * destruct (step_skip s card cards Hat Hne Hd) as [A [D C]].
        destruct (IH (step s) A) as [k [A' [C' L']]].
        { rewrite D. lia. }
        exists (S k). rewrite get_cards_S, A', C', L', C, D.
        repeat split.
        unfold records. cbn [flat_map]. unfold skipped in Hd. rewrite Hd.
        reflexivity.
Qed.

Lemma records_usable cards :
  (exists c, In c cards /\ usable c) -> (1 <= len (records cards))%Z.
Proof.
  intros [c [Hin [d Hd]]]. induction cards as [|x cards IH]; [destruct Hin|].
  unfold records. cbn [flat_map]. fold (records cards).
  unfold len. rewrite length_app.
  destruct Hin as [Hx | Hin].
  - subst x. rewrite Hd. cbn. lia.
  - specialize (IH Hin). unfold len in IH. lia.
Qed.

(** X5: as long as every page answers OK with cards that raise nothing
    and of which at least one gives a record, a run with a target of 1
    or more comes to an end: from some fuel on it has finished, with
    exactly [goods_count] records, after [goods_count] requests at
    most. *)
Theorem run_finishes :
  (1 <= goods_count)%Z ->
  (forall n, (1 <= n)%Z ->
     status_code (requests_get (page_url n)) = 200%Z
     /\ Forall (fun c => usable c \/ skipped c) (page_cards n)
     /\ exists c, In c (page_cards n) /\ usable c) ->
  exists fuel,
    forall n, (fuel <= n)%nat ->
      at_ (get_cards n init) = Finished
      /\ len (card_data (get_cards n init)) = goods_count
      /\ (current_page (get_cards n init) <= goods_count)%Z.
Proof.
  intros Hgc Hsite.
  assert (Hloop : forall m s,
            reachable s -> at_ s = AtWhile ->
            (len (card_data s) <= goods_count)%Z ->
            (current_page s <= len (card_data s))%Z ->
            Z.to_nat (goods_count - len (card_data s)) = m ->
            exists k, at_ (get_cards k s) = Finished
                      /\ len (card_data (get_cards k s)) = goods_count
                      /\ (current_page (get_cards k s) <= goods_count)%Z).
  { induction m as [m IH] using lt_wf_ind. intros s Hs Hat Hle Hcp Hm.
    destruct (Z.eq_dec (len (card_data s)) goods_count) as [Heq|Hne].
    - exists 1%nat. rewrite get_cards_S. cbn [OlxParser.get_cards].
      rewrite (step_write goods_count requests_get BeautifulSoup s Hat) by lia.
      unfold write_results.
      destruct (card_data s) as [|first ds] eqn:Ecd.
      + unfold len in Heq. cbn in Heq. lia.
      + cbn [at_ card_data current_page].
        split; [reflexivity|]. split; [exact Heq | lia].
    - pose proof (inv_page _ _ _ _ (reachable_invariant _ _ _ s Hs)) as Hp.
      destruct (Hsite (current_page s + 1)%Z) as [Hst [Hall Hex]]; [lia|].
      destruct (page_cards (current_page s + 1)) as [|c cs] eqn:Ecards.
      { destruct Hex as [x [[] _]]. }
      destruct (step_fetch goods_count requests_get BeautifulSoup s c cs Hat)
        as [A [D C]];
        [lia | exact Hst | exact Ecards |].
      destruct (for_loop_returns (c :: cs) Hall (step s) A)
        as [k [A' [C' L']]].
      { rewrite D. lia. }
      pose proof (records_usable (c :: cs) Hex) as Hone.
      rewrite D in L'. rewrite C in C'.
      destruct (IH (Z.to_nat (goods_count
                              - len (card_data (get_cards k (step s))))))
        with (s := get_cards k (step s)) as [k' [A'' [L'' C'']]].
      + rewrite L'. lia.
      + apply reachable_get_cards. constructor. exact Hs.
      + exact A'.
      + rewrite L'. lia.
      + rewrite L', C'. lia.
      + reflexivity.
      + exists (S k + k')%nat. rewrite get_cards_add, get_cards_S.
        split; [assumption|]. split; assumption. }
  destruct (Hloop (Z.to_nat (goods_count - len (card_data init))) init)
    as [k [A [L C]]];
    [constructor | reflexivity | cbn; lia | cbn; lia | reflexivity |].
  exists k. intros n Hn.
  replace n with (k + (n - k))%nat by lia.
  rewrite get_cards_add, get_cards_stopped;
    [split; [assumption|]; split; assumption|].
  unfold stopped. rewrite A. reflexivity.
Qed.

(** X6: when every page answers OK with cards, none of which gives a
    record or raises, a run with a target of 1 or more never stops and
    never collects anything, whatever the fuel. *)
Theorem run_never_stops :
  (1 <= goods_count)%Z ->
  (forall n, (1 <= n)%Z ->
     status_code (requests_get (page_url n)) = 200%Z
     /\ page_cards n <> []
     /\ Forall skipped (page_cards n)) ->
  forall fuel,
    stopped (get_cards fuel init) = false
    /\ card_data (get_cards fuel init) = []
    /\ files (get_cards fuel init) = [].
Proof.
  intros Hgc Hsite.
  assert (Hkeep : forall fuel s,
            reachable s -> card_data s = [] ->
            (at_ s = AtWhile
             \/ exists cs, at_ s = AtFor cs /\ Forall skipped cs) ->
            stopped (get_cards fuel s) = false
            /\ card_data (get_cards fuel s) = []
            /\ files (get_cards fuel s) = []).
  { induction fuel as [|fuel IH]; intros s Hs Hd Hat.
    - cbn [OlxParser.get_cards].
      pose proof (inv_world _ _ _ _ (reachable_invariant _ _ _ s Hs)) as Hw.
      unfold stopped.
      destruct Hat as [Hat | [cs [Hat _]]]; rewrite Hat in *;
        repeat split; try assumption; apply Hw.
    - rewrite get_cards_S. apply IH.
      + constructor. exact Hs.
      + destruct (step_grows goods_count requests_get BeautifulSoup s) as [new Hnew].
        destruct Hat as [Hat | [[|c cs] [Hat Hall]]].
        * pose proof (inv_page _ _ _ _ (reachable_invariant _ _ _ s Hs)) as Hp.
          destruct (Hsite (current_page s + 1)%Z) as [Hst [Hne _]]; [lia|].
          destruct (page_cards (current_page s + 1)) as [|c cs] eqn:Ec;
            [contradiction|].
          destruct (step_fetch goods_count requests_get BeautifulSoup s c cs Hat) as [_ [D _]];
            [rewrite Hd; cbn; lia | exact Hst | exact Ec |].
          rewrite D. exact Hd.
        * destruct (step_for_end goods_count requests_get BeautifulSoup s Hat) as [_ [D _]]. rewrite D. exact Hd.
        * inversion Hall as [|? ? Hc Hcs]; subst.
          destruct (step_skip s c cs Hat) as [_ [D _]];
            [rewrite Hd; cbn; lia | exact Hc |].
          rewrite D. exact Hd.
      + destruct Hat as [Hat | [[|c cs] [Hat Hall]]].
        * pose proof (inv_page _ _ _ _ (reachable_invariant _ _ _ s Hs)) as Hp.
          destruct (Hsite (current_page s + 1)%Z) as [Hst [Hne Hsk]]; [lia|].
          destruct (page_cards (current_page s + 1)) as [|c cs] eqn:Ec;
            [contradiction|].
          destruct (step_fetch goods_count requests_get BeautifulSoup s c cs Hat) as [A _];
            [rewrite Hd; cbn; lia | exact Hst | exact Ec |].
          right. exists (c :: cs). split; assumption.
        * destruct (step_for_end goods_count requests_get BeautifulSoup s Hat) as [A _]. left. exact A.
        * inversion Hall as [|? ? Hc Hcs]; subst.
          destruct (step_skip s c cs Hat) as [A _];
            [rewrite Hd; cbn; lia | exact Hc |].
          right. exists cs. split; assumption. }
  intros fuel. apply Hkeep; [constructor | reflexivity | left; reflexivity].
Qed.

(** X7: [handle] prints only when asked to and when there are records,
    and then it prints the result set as it stands.  After a finished
    run these are the rows of the file; after an aborted run they are
    printed although no file was written.  When [get_cards] raises,
    nothing is printed and there is no file. *)
Theorem handle_prints (print_result : bool) (fuel : nat) :
  let s := fst (handle goods_count requests_get BeautifulSoup
                       print_result fuel) in
  s = get_cards fuel init
  /\ match snd (handle goods_count requests_get BeautifulSoup
                       print_result fuel) with
     | Returns (Some l) =>
         print_result = true /\ l = card_data s /\ l <> []
         /\ ((at_ s = Finished
              /\ files s = [{| fieldnames := record_keys; rows := l |}])
             \/ (at_ s = Aborted /\ files s = []))
     | Returns None =>
         (print_result = false \/ card_data s = [])
         /\ (at_ s = Finished \/ at_ s = Aborted)
         /\ (card_data s = [] -> at_ s = Aborted)
     | Raises e =>
         at_ s = Crashed e /\ files s = []
         /\ (e = ValueError \/ e = IndexError)
     | Running => stopped s = false
     end.
Proof.
  unfold handle. cbn [fst snd]. split; [reflexivity|].
  set (s := get_cards fuel init).
  assert (Hs : reachable s)
    by (apply reachable_get_cards; constructor).
  pose proof (reachable_invariant _ _ _ s Hs) as Hinv.
  pose proof (inv_world _ _ _ _ Hinv) as Hworld.
  pose proof (inv_records _ _ _ _ Hinv) as Hrec.
  unfold stopped.
  destruct (at_ s) as [|cs| | |e] eqn:Hat; try reflexivity.
  - destruct Hworld as [_ [_ [first [Hfirst Hfiles]]]].
    destruct (card_data s) as [|d ds] eqn:Hd; [discriminate Hfirst|].
    inversion Hfirst. subst first.
    assert (Hk : keys d = record_keys).
    { inversion Hrec as [|? ? [Hk _] _]. exact Hk. }
    cbn [list_truthy andb].
    destruct print_result.
    + split; [reflexivity|]. split; [reflexivity|].
      split; [discriminate|]. left. split; [reflexivity|].
      rewrite Hfiles, Hk. reflexivity.
    + split; [left; reflexivity|]. split; [left; reflexivity | discriminate].
  - destruct Hworld as [_ [Hfiles _]].
    destruct (card_data s) as [|d ds] eqn:Hd; cbn [list_truthy andb].
    + split; [right; reflexivity|]. split; [right; reflexivity|].
      intros _. reflexivity.
    + destruct print_result.
      * split; [reflexivity|]. split; [reflexivity|].
        split; [discriminate|]. right. split; [reflexivity | exact Hfiles].
      * split; [left; reflexivity|].
        split; [right; reflexivity | discriminate].
  - destruct e.
    + destruct Hworld as [_ [Hfiles _]].
      split; [reflexivity|]. split; [exact Hfiles | left; reflexivity].
    + destruct Hworld as [_ [_ [_ Hfiles]]].
      split; [reflexivity|]. split; [exact Hfiles | right; reflexivity].
Qed.

End Site.

Section ModelSite.

Context {tables : PyFloat.Unicode}.

Variable goods_count : Z.
Variable requests_get : string -> Response.
Variable BeautifulSoup : string -> Tag.

(** X1: a run never asks for the same URL twice, and it has made as many
    requests as the page counter says.  The URLs are those that the
    model of the library prints. *)
Theorem requests_are_distinct (s : state) :
  OlxParser.reachable (lib := FurlModel.model)
    goods_count requests_get BeautifulSoup s ->
  NoDup (requested s)
  /\ Z.of_nat (List.length (requested s)) = current_page s.
Proof.
  intros Hs.
  pose proof (reachable_invariant _ _ _ s Hs) as Hinv.
  rewrite (inv_requested _ _ _ _ Hinv).
  pose proof (inv_page _ _ _ _ Hinv) as Hp.
  split.
  - apply NoDup_map_NoDup_ForallPairs; [|apply pages_nodup].
    intros a b Ha Hb E.
    apply page_url_inj; [apply (pages_range _ _ Ha) | apply (pages_range _ _ Hb) | exact E].
  - rewrite length_map. unfold pages. rewrite length_map, length_seq. lia.
Qed.

End ModelSite.

Lemma requests_are_distinct_witness :
  NoDup (requested (OlxParser.get_cards 3 two_pages two_pages_parser 8 init))
  /\ current_page (OlxParser.get_cards 3 two_pages two_pages_parser 8 init)
     = 2%Z.
Proof.
  destruct (requests_are_distinct 3 two_pages two_pages_parser
              (OlxParser.get_cards 3 two_pages two_pages_parser 8 init)
              (reachable_get_cards _ _ _ 8 _ (reach_init _ _ _)))
    as [Hnodup Hlen].
  split; [exact Hnodup|]. rewrite <- Hlen. reflexivity.
Defined.

Lemma finished_run_file_witness :
  exists f,
    files (OlxParser.get_cards 3 two_pages two_pages_parser 8 init) = [f]
    /\ fieldnames f = record_keys
    /\ len (rows f) = 3%Z.
Proof.
  assert (Hfin : at_ (OlxParser.get_cards 3 two_pages two_pages_parser 8 init)
                 = Finished) by reflexivity.
  destruct (finished_run_file 3 two_pages two_pages_parser
              (OlxParser.get_cards 3 two_pages two_pages_parser 8 init)
              (reachable_get_cards _ _ _ 8 _ (reach_init _ _ _)) Hfin)
    as [f [Hf [Hh [_ [_ [Hn _]]]]]].
  exists f. repeat split; assumption.
Defined.

Lemma log_matches_run_witness :
  List.length
    (filter is_warning
       (log (OlxParser.get_cards 3 two_pages two_pages_parser 8 init)))
  = 2%nat.
Proof.
  destruct (log_matches_run 3 two_pages two_pages_parser
              (OlxParser.get_cards 3 two_pages two_pages_parser 8 init)
              (reachable_get_cards _ _ _ 8 _ (reach_init _ _ _)))
    as [_ [Hw _]].
  rewrite Hw. reflexivity.
Defined.

Lemma nonpositive_target_raises_witness :
  at_ (OlxParser.get_cards (-5) two_pages two_pages_parser 4 init)
  = Crashed IndexError
  /\ requested (OlxParser.get_cards 0 site_down two_pages_parser 1 init)
     = [].
Proof.
  assert (H5 : (-5 <= 0)%Z) by lia.
  assert (H0 : (0 <= 0)%Z) by lia.
  pose proof (nonpositive_target_raises (-5) two_pages two_pages_parser 3 H5)
    as E5.
  pose proof (nonpositive_target_raises 0 site_down two_pages_parser 0 H0)
    as E0.
  rewrite E5, E0. split; reflexivity.
Defined.

Lemma run_finishes_witness :
  exists fuel,
    forall n, (fuel <= n)%nat ->
      at_ (OlxParser.get_cards 3 endless_site shelf_parser n init) = Finished
      /\ len (card_data (OlxParser.get_cards 3 endless_site shelf_parser
                           n init)) = 3%Z
      /\ (current_page (OlxParser.get_cards 3 endless_site shelf_parser
                          n init) <= 3)%Z.
Proof.
  assert (H3 : (1 <= 3)%Z) by lia.
  apply (run_finishes 3 endless_site shelf_parser H3).
  intros n _. split; [reflexivity|]. split.
  - constructor; [left; eexists; reflexivity|].
    constructor; [right; reflexivity | constructor].
  - exists shelf_card. split; [left; reflexivity | eexists; reflexivity].
Defined.

Lemma run_never_stops_witness :
  stopped (OlxParser.get_cards 3 endless_site barren_parser 50 init) = false
  /\ card_data (OlxParser.get_cards 3 endless_site barren_parser 50 init)
     = [].
Proof.
  assert (H3 : (1 <= 3)%Z) by lia.
  destruct (run_never_stops 3 endless_site barren_parser H3) with (fuel := 50%nat)
    as [Hstop [Hdata _]].
  - intros n _. split; [reflexivity|]. split; [discriminate|].
    constructor; [reflexivity|]. constructor; [reflexivity | constructor].
  - split; assumption.
Defined.

Lemma handle_prints_witness :
  snd (handle 3 one_page two_pages_parser true 6)
  = Returns (Some (records [desk_card; lamp_card]))
  /\ files (fst (handle 3 one_page two_pages_parser true 6)) = []
  /\ snd (handle 3 one_page two_pages_parser false 6) = Returns None.
Proof.
  pose proof (handle_prints 3 one_page two_pages_parser true 6) as Hprint.
  assert (E : snd (handle 3 one_page two_pages_parser true 6)
              = Returns (Some (records [desk_card; lamp_card])))
    by (vm_compute; reflexivity).
  split; [exact E|]. split; [|vm_compute; reflexivity].
  cbv zeta in Hprint. rewrite E in Hprint.
  destruct Hprint as [_ [_ [_ [_ [[Hfin _] | [_ Hfiles]]]]]];
    [vm_compute in Hfin; discriminate Hfin | exact Hfiles].
Defined.

End RunMore.

(** ** More on [prepare_card_data] and [check_data] *)
Module CardMore.
Import PyStr TextProps PriceProps ModelProps Soup OlxParser Spec Examples Terms
       CardProps Handle.

(** With the model of the library, no host is found in [None]. *)
Lemma is_url_truthy_some u h :
  is_url (lib := FurlModel.model) u = Return h ->
  not_ h = false ->
  exists s, u = Some s.
Proof.
  destruct u as [s|]; [intros _ _; exists s; reflexivity|].
  intros H Hn. vm_compute in H. inversion H. subst h. discriminate Hn.
Qed.

Section Tables.

Context {tables : PyFloat.Unicode}.


End Tables.


Section Library.

Context {tables : PyFloat.Unicode} {lib : Furl.Library}.

Lemma check_data_warns d :
  (exists v, In v (values d) /\ truthy v = false) ->
  check_data d = [(WARNING, "Not all data received")].
Proof.
  intros [v [Hin Hv]]. unfold check_data.
  destruct (forallb truthy (values d)) eqn:E; [|reflexivity].
  rewrite forallb_forall in E. rewrite (E v Hin) in Hv. discriminate Hv.
Qed.

Lemma record_of_missing card container url price :
  get card "id" = None \/ find card "a" None = None
  \/ find card "img" None = None \/ heading container = None
  \/ price_node container = None \/ state_label card = None ->
  link card = Return url ->
  read_price container = Return price ->
  check_data (record_of card container url price)
  = [(WARNING, "Not all data received")].
Proof.
  intros Hmiss L Hp.
  apply check_data_warns. exists VNone. split; [|reflexivity].
  unfold record_of, image_source. cbn [values map snd].
  destruct Hmiss as [H | [H | [H | [H | [H | H]]]]].
  - rewrite H. left. reflexivity.
  - unfold link in L. rewrite H in L. inversion L.
    right. left. reflexivity.
  - rewrite H. right. right. left. reflexivity.
  - rewrite H. right. right. right. left. reflexivity.
  - unfold read_price in Hp. rewrite H in Hp. inversion Hp.
    right. right. right. right. left. reflexivity.
  - rewrite H. do 6 right. left. reflexivity.
Qed.

(** X13: a record made from a card that lacks the identifier, the
    anchor, the image, the heading, the price node or the state label
    makes [check_data] warn; and such a card does give a record when
    the link step returns, the image passes and the price can be
    read. *)
Theorem missing_node_is_flagged card container :
  find card "div" (Some "css-u2ayx9") = Some container ->
  get card "id" = None \/ find card "a" None = None
  \/ find card "img" None = None \/ heading container = None
  \/ price_node container = None \/ state_label card = None ->
  (forall d, prepare_card_data card = Return (Some d) ->
     check_data d = [(WARNING, "Not all data received")])
  /\ (forall url price,
        link card = Return url ->
        image_test card = Return false ->
        read_price container = Return price ->
        exists d, prepare_card_data card = Return (Some d)
                  /\ check_data d = [(WARNING, "Not all data received")]).
Proof.
  intros Hc Hmiss. split.
  - intros d Hd.
    destruct (prepare_card_data_record card d Hd)
      as [url [c [price [L [_ [Hc' [Hp Ed]]]]]]].
    rewrite Hc in Hc'. inversion Hc'. subst c d.
    apply record_of_missing; assumption.
  - intros url price L I Hp.
    exists (record_of card container url price). split.
    + rewrite prepare_card_data_stages, L, I, Hc. cbn [bind].
      rewrite Hp. reflexivity.
    + apply record_of_missing; assumption.
Qed.

Lemma strip_prefix_self p y : PyStr.strip_prefix p (p ++ y) = Some y.
Proof.
  induction p as [|c p IH]; [reflexivity|].
  cbn [append PyStr.strip_prefix]. rewrite Ascii.eqb_refl. exact IH.
Qed.

Lemma startswith_app p u v :
  (String.length p <= String.length u)%nat ->
  PyStr.startswith (u ++ v) p = PyStr.startswith u p.
Proof.
  unfold PyStr.startswith. revert u.
  induction p as [|c p IH]; intros u Hlen; [reflexivity|].
  destruct u as [|a u]; [cbn in Hlen; lia|].
  cbn [append PyStr.strip_prefix]. destruct (Ascii.eqb c a); [|reflexivity].
  apply IH. cbn in Hlen. lia.
Qed.

(** What stands after the first separator plays no role. *)
Lemma split_head_after sep x y :
  PyStr.split_head sep (x ++ sep ++ y) = PyStr.split_head sep (x ++ sep).
Proof.
  induction x as [|a x IH].
  - cbn [append]. destruct sep as [|c sep]; [destruct y; reflexivity|].
    assert (Hl : PyStr.startswith (String c sep ++ y) (String c sep) = true).
    { unfold PyStr.startswith. rewrite strip_prefix_self. reflexivity. }
    assert (Hr : PyStr.startswith (String c sep) (String c sep) = true).
    { unfold PyStr.startswith.
      rewrite <- (append_empty_r (String c sep)) at 2.
      rewrite strip_prefix_self. reflexivity. }
    cbn [append] in Hl. cbn [append PyStr.split_head].
    rewrite Hl, Hr. reflexivity.
  - cbn [append PyStr.split_head].
    assert (E : PyStr.startswith (String a (x ++ sep ++ y)) sep
                = PyStr.startswith (String a (x ++ sep)) sep).
    { change (String a (x ++ sep ++ y)) with (String a x ++ sep ++ y).
      rewrite <- append_assoc.
      apply startswith_app. cbn [append String.length].
      rewrite length_append. lia. }
    rewrite E, IH. reflexivity.
Qed.

Lemma price_text_trailing a b :
  price_text (a ++ "zł" ++ b) = price_text (a ++ "zł").
Proof.
  unfold price_text.
  rewrite !drop_spaces_app, !comma_to_point_app.
  change (comma_to_point (drop_spaces "zł")) with "zł".
  apply split_head_after.
Qed.

Lemma price_string_ends whole decimals :
  exists a, price_string whole decimals = a ++ "zł".
Proof.
  unfold price_string.
  exists (whole ++ match decimals with
                   | [] => ""
                   | _ :: _ => "," ++ digits_str decimals
                   end ++ " ").
  rewrite !append_assoc. reflexivity.
Qed.

(** X14: what the price node says after the first currency suffix is
    not read: the outcome is that of the text up to the suffix.  So on a
    card that comes to the price step a well-formed price followed by
    any words gives the double nearest to the number written. *)
Theorem text_after_currency_is_ignored (card container p : Tag)
        (url : option string) :
  link card = Return url ->
  image_test card = Return false ->
  find card "div" (Some "css-u2ayx9") = Some container ->
  price_node container = Some p ->
  (forall a b,
     get_text p = a ++ "zł" ++ b ->
     prepare_card_data card
     = (x <- PyFloat.float (price_text (a ++ "zł")) ;;
        Return (Some (record_of card container url (VFloat x)))))
  /\ (forall whole d ds decimals words,
        Forall (fun d => d < 10)%N (d :: ds) ->
        Forall (fun d => d < 10)%N decimals ->
        drop_spaces whole = digits_str (d :: ds) ->
        get_text p = price_string whole decimals ++ words ->
        prepare_card_data card
        = Return (Some (record_of card container url
               (VFloat (PyFloat.nearest false
                          (PyFloat.of_digits ((d :: ds) ++ decimals))
                          (- Z.of_nat (List.length decimals))))))).
Proof.
  intros L I Hc Hp.
  rewrite (prepare_card_data_price card container url p L I Hc Hp).
  split.
  - intros a b Ht. rewrite Ht, price_text_trailing. reflexivity.
  - intros whole d ds decimals words Hds Hdec Hwhole Ht.
    destruct (price_string_ends whole decimals) as [a Ha].
    rewrite Ht, Ha, append_assoc, price_text_trailing, <- Ha.
    rewrite (price_text_price_string whole (d :: ds) decimals Hds Hdec Hwhole).
    rewrite (float_decimal false d ds decimals Hds Hdec). reflexivity.
Qed.

(** X15: a minus sign before a well-formed price is read with it: on a
    card that comes to the price step, the price of the record is the
    double nearest to the negative number written. *)
Theorem minus_sign_is_kept (card container p : Tag) (url : option string) :
  link card = Return url ->
  image_test card = Return false ->
  find card "div" (Some "css-u2ayx9") = Some container ->
  price_node container = Some p ->
  forall whole d ds decimals,
    Forall (fun d => d < 10)%N (d :: ds) ->
    Forall (fun d => d < 10)%N decimals ->
    drop_spaces whole = digits_str (d :: ds) ->
    get_text p = String "-" (price_string whole decimals) ->
    prepare_card_data card
    = Return (Some (record_of card container url
           (VFloat (PyFloat.nearest true
                      (PyFloat.of_digits ((d :: ds) ++ decimals))
                      (- Z.of_nat (List.length decimals)))))).
Proof.
  intros L I Hc Hp whole d ds decimals Hds Hdec Hwhole Ht.
  rewrite (prepare_card_data_price card container url p L I Hc Hp), Ht.
  assert (E : price_text (String "-" (price_string whole decimals))
              = String "-" (price_text (price_string whole decimals))).
  { reflexivity. }
  rewrite E.
  rewrite (price_text_price_string whole (d :: ds) decimals Hds Hdec Hwhole).
  rewrite (float_decimal true d ds decimals Hds Hdec). reflexivity.
Qed.

End Library.

Lemma missing_node_is_flagged_witness :
  exists d, prepare_card_data shelf_card = Return (Some d)
            /\ check_data d = [(WARNING, "Not all data received")].
Proof.
  assert (L : link shelf_card = Return None) by reflexivity.
  assert (I : image_test shelf_card = Return false) by reflexivity.
  assert (P : read_price
                (mkTag "div" [("class", "css-u2ayx9")]
                   [Child (mkTag "h6" [("class", "css-16v5mdi er34gjf0")]
                             [NavigableString "Shelf"]);
                    Child (mkTag "p" [("class", "css-10b0gli er34gjf0")]
                             [NavigableString "15 zł"])])
              = Return (VFloat (PyFloat.nearest false 15 0)))
    by reflexivity.
  destruct (missing_node_is_flagged shelf_card
              (mkTag "div" [("class", "css-u2ayx9")]
                 [Child (mkTag "h6" [("class", "css-16v5mdi er34gjf0")]
                           [NavigableString "Shelf"]);
                  Child (mkTag "p" [("class", "css-10b0gli er34gjf0")]
                           [NavigableString "15 zł"])])
              eq_refl (or_intror (or_introl eq_refl))) as [_ Hyields].
  exact (Hyields None _ L I P).
Defined.

Lemma text_after_currency_is_ignored_witness :
  prepare_card_data haggle_card
  = Return (Some [("card_id", VStr "10"); ("card_url", VNone);
                  ("img_url", VNone); ("name", VStr "Desk");
                  ("price", VFloat (PyFloat.nearest false 120050 (-2)));
                  ("currency_unit", VStr "zł"); ("state", VNone)]).
Proof.
  assert (L : link haggle_card = Return None) by reflexivity.
  assert (I : image_test haggle_card = Return false) by reflexivity.
  destruct (text_after_currency_is_ignored haggle_card
              (mkTag "div" [("class", "css-u2ayx9")]
                 [Child (mkTag "h6" [("class", "css-16v5mdi er34gjf0")]
                           [NavigableString "Desk"]);
                  Child (mkTag "p" [("class", "css-10b0gli er34gjf0")]
                           [NavigableString "1 200,50 zł do negocjacji"])])
              (mkTag "p" [("class", "css-10b0gli er34gjf0")]
                 [NavigableString "1 200,50 zł do negocjacji"])
              None L I eq_refl eq_refl) as [_ Hwords].
  exact (Hwords "1 200" 1%N [2; 0; 0]%N [5; 0]%N " do negocjacji"
           ltac:(repeat constructor) ltac:(repeat constructor)
           eq_refl eq_refl).
Defined.

Lemma minus_sign_is_kept_witness :
  prepare_card_data refund_card
  = Return (Some [("card_id", VStr "11"); ("card_url", VNone);
                  ("img_url", VNone); ("name", VStr "Voucher");
                  ("price", VFloat (PyFloat.nearest true 2550 (-2)));
                  ("currency_unit", VStr "zł"); ("state", VNone)]).
Proof.
  assert (L : link refund_card = Return None) by reflexivity.
  assert (I : image_test refund_card = Return false) by reflexivity.
  exact (minus_sign_is_kept refund_card
           (mkTag "div" [("class", "css-u2ayx9")]
              [Child (mkTag "h6" [("class", "css-16v5mdi er34gjf0")]
                        [NavigableString "Voucher"]);
               Child (mkTag "p" [("class", "css-10b0gli er34gjf0")]
                        [NavigableString "-25,50 zł"])])
           (mkTag "p" [("class", "css-10b0gli er34gjf0")]
              [NavigableString "-25,50 zł"])
           None L I eq_refl eq_refl "25" 2%N [5]%N [5; 0]%N
           ltac:(repeat constructor) ltac:(repeat constructor)
           eq_refl eq_refl).
Defined.

End CardMore.
